(** * FlowResume: retry wrapper, interaction log and PDF rendering

    A shallow embedding of the Python modules [ai_service.py],
    [db_operations.py] and [utils.py], followed by the properties of the
    retry loop, of the JSON interaction log and of the temporary file used by
    the PDF renderer.

    Conventions of the embedding.
    - A Python [int] is a [Z]; a Python [str] is a [string], one [ascii] per
      character of the Python string.
    - A Python function that can raise returns an [outcome]; the messages
      shown through Streamlit and the calls to [time.sleep] are recorded, in
      program order, in a list of events.
    - Code outside the repository (the Gemini client, [json], [datetime],
      [pdfkit], [tempfile]) is kept abstract: it appears as Section
      variables or as the fields of a class, and the general properties hold
      for every instance.  The instances defined after the three modules
      serve to evaluate the code on examples. *)

From Stdlib Require Import ZArith List String Ascii Bool Lia DecimalString.
Import ListNotations.
Open Scope string_scope.
Open Scope Z_scope.

(** ** Python built-ins used by the three modules *)

Module Py.

(** [str(n)] for an integer. *)
Definition str_of_int (n : Z) : string :=
  NilZero.string_of_int (Z.to_int n).

(** [range(n)]: empty when [n <= 0]. *)
Definition range (n : Z) : list Z :=
  map Z.of_nat (seq 0 (Z.to_nat n)).

(** [needle in hay] on two strings. *)
Fixpoint contains (needle hay : string) : bool :=
  prefix needle hay ||
  match hay with
  | EmptyString => false
  | String _ rest => contains needle rest
  end.

(** Truth value of a string: only [""] is falsy. *)
Definition truthy (s : string) : bool :=
  match s with
  | EmptyString => false
  | String _ _ => true
  end.

(** How a call ends.  [Raised] is an exception derived from [Exception],
    with its [str(e)].  [Stopped] is [st.stop()]: Streamlit ends the script
    run with a control-flow exception that derives from [BaseException],
    which no [except Exception] clause intercepts. *)
Inductive outcome (A : Type) : Type :=
| Returned (a : A)
| Raised (str_e : string)
| Stopped.

Arguments Returned {A} a.
Arguments Raised {A} str_e.
Arguments Stopped {A}.

End Py.

Import Py.

(** ** ai_service.py *)

Module AiService.

(** One element of [pdf_content_parts]: a dictionary with a MIME type and
    base64 data. *)
Record image_part : Type := ImagePart {
  mime_type : string;
  data : string
}.

(** An element of the [content] list handed to the model: the image parts
    first, the prompt last. *)
Inductive content : Type :=
| Image (p : image_part)
| Prompt (text : string).

(** What one request to the model comes to.  An exception carries its
    [str(e)] and, if it is an instance of the class the first handler names,
    the status code and the text of [e.response]. *)
Inductive reply : Type :=
| Response (text : string)
    (* a response object; [text = ""] makes [response.text] falsy *)
| NoResponse
    (* a falsy response *)
| Raises (str_e : string) (response : option (Z * string)).
    (* an exception derived from [Exception] *)

(** What evaluating [genai.types.core.ClientResponseError], the expression
    of the first [except] header, comes to.  Python evaluates it when an
    exception raised in the [try] body reaches the handlers.  The released
    google-generativeai client has no attribute [core] in [genai.types]: the
    evaluation raises [AttributeError], and an exception raised while the
    handlers are searched is caught by none of them: it leaves
    [call_gemini].  [ClassFound] stands for a client, or a test double, that
    defines the class. *)
Inductive first_header : Type :=
| NoSuchAttribute (str_e : string)
| ClassFound.

(** What [call_gemini] does, in program order. *)
Inductive event : Type :=
| Generate (model_name : string) (contents : list content)
| Warning (msg : string)
| Error (msg : string)
| Sleep (seconds : Z).

(** How one iteration of the [for] loop ends. *)
Inductive flow : Type :=
| Continue
| Exit (r : outcome string).

Definition default_model : string := "gemini-1.5-flash".
Definition default_max_retries : Z := 5.

Definition sentinel : string :=
  "Error: Unable to process request after multiple attempts.".

Definition empty_response_message : string :=
  "Empty or invalid response received from Gemini".

Definition exhausted_message (max_retries : Z) (str_e : string) : string :=
  "Failed to get response from Gemini after " ++ str_of_int max_retries
    ++ " attempts: " ++ str_e.

(** [content = []], extended by the image parts when there are any, then
    the prompt appended. *)
Definition request_contents
  (prompt : string) (pdf_content_parts : list image_part) : list content :=
  (map Image pdf_content_parts ++ [Prompt prompt])%list.

Section Wrapper.

(** The client library: what the first [except] header evaluates to. *)
Variable header : first_header.

(** The remote model: the reply to the request of attempt [attempt]. *)
Variable generate_content : Z -> string -> list content -> reply.

(** [except Exception as e:] *)
Definition except_Exception (max_retries attempt : Z) (str_e : string)
  : flow * list event :=
  let warning :=
    Warning ("General error calling Gemini on attempt "
               ++ str_of_int (attempt + 1) ++ ": " ++ str_e
               ++ ". Retrying in " ++ str_of_int (2 ^ attempt) ++ " seconds.") in
  if attempt =? max_retries - 1
  then (Exit (Raised (exhausted_message max_retries str_e)), [warning])
  else (Continue, [warning; Sleep (2 ^ attempt)]).

(** [except genai.types.core.ClientResponseError as e:] *)
Definition except_ClientResponseError
  (max_retries attempt status_code : Z) (str_e response_text : string)
  : flow * list event :=
  if status_code =? 429 then
    (Continue,
     [Warning ("Rate limit hit on attempt " ++ str_of_int (attempt + 1)
                 ++ ". Retrying in " ++ str_of_int (2 ^ attempt) ++ " seconds.");
      Sleep (2 ^ attempt)])
  else if (status_code =? 400) && contains "API key expired" str_e then
    (Exit Stopped,
     [Error "🚨 Your Google API key has expired or is invalid. Please renew it."])
  else
    let error :=
      Error ("Gemini API error on attempt " ++ str_of_int (attempt + 1)
               ++ ": Status " ++ str_of_int status_code
               ++ ", Details: " ++ response_text) in
    if attempt =? max_retries - 1
    then (Exit (Raised (exhausted_message max_retries str_e)), [error])
    else (Continue, [error; Sleep (2 ^ attempt)]).

(** An exception raised in the [try] body reaches the handlers: the first
    header is evaluated, then the exception is matched against the two
    classes in turn. *)
Definition handlers
  (max_retries attempt : Z) (str_e : string) (response : option (Z * string))
  : flow * list event :=
  match header with
  | NoSuchAttribute attribute_error => (Exit (Raised attribute_error), [])
  | ClassFound =>
      match response with
      | Some (status_code, response_text) =>
          except_ClientResponseError max_retries attempt status_code str_e response_text
      | None => except_Exception max_retries attempt str_e
      end
  end.

(** The [else] branch of [if response and response.text]: warn, then
    raise a plain [Exception] inside the [try]. *)
Definition empty_response (max_retries attempt : Z) : flow * list event :=
  let (fl, evs) := handlers max_retries attempt empty_response_message None in
  (fl,
   Warning ("Empty or invalid response from Gemini on attempt "
              ++ str_of_int (attempt + 1) ++ ". Retrying...") :: evs).

(** The body of [for attempt in range(max_retries)]. *)
Definition attempt_body
  (prompt : string) (pdf_content_parts : list image_part)
  (model_name : string) (max_retries attempt : Z) : flow * list event :=
  let contents := request_contents prompt pdf_content_parts in
  let (fl, evs) :=
    match generate_content attempt model_name contents with
    | Response text =>
        if truthy text then (Exit (Returned text), [])
        else empty_response max_retries attempt
    | NoResponse => empty_response max_retries attempt
    | Raises str_e response => handlers max_retries attempt str_e response
    end in
  (fl, Generate model_name contents :: evs).

(** The loop over the attempts still to run, and the [return] after it. *)
Fixpoint for_attempts
  (prompt : string) (pdf_content_parts : list image_part)
  (model_name : string) (max_retries : Z) (attempts : list Z)
  : outcome string * list event :=
  match attempts with
  | [] => (Returned sentinel, [])
  | attempt :: later =>
      let (fl, evs) := attempt_body prompt pdf_content_parts model_name max_retries attempt in
      match fl with
      | Exit r => (r, evs)
      | Continue =>
          let (r, evs') := for_attempts prompt pdf_content_parts model_name max_retries later in
          (r, (evs ++ evs')%list)
      end
  end.

Definition call_gemini
  (prompt : string) (pdf_content_parts : list image_part)
  (model_name : string) (max_retries : Z) : outcome string * list event :=
  for_attempts prompt pdf_content_parts model_name max_retries (range max_retries).

(** *** The analysis functions *)

(** The prompt templates are f-strings of several dozen lines; they are
    kept abstract: [template f args] is the text of the template of
    function [f] with [args] interpolated. *)
Variable template : string -> list string -> string.

(** [try: return call_gemini(...) except Exception as e: return f"<doing>{str(e)}"] *)
Definition try_call_gemini
  (doing prompt : string) (pdf_content_parts : list image_part)
  (model_name : string) : outcome string * list event :=
  let (r, evs) := call_gemini prompt pdf_content_parts model_name default_max_retries in
  match r with
  | Raised str_e => (Returned (doing ++ str_e), evs)
  | Returned _ | Stopped => (r, evs)
  end.

(** [x if x else fallback] inside a template. *)
Definition or_else (x fallback : string) : string :=
  if truthy x then x else fallback.

Definition analyze_resume job_desc pdf_content_parts model_name :=
  try_call_gemini "Error analyzing resume: "
    (template "analyze_resume" [job_desc]) pdf_content_parts model_name.

Definition get_match_score job_desc pdf_content_parts model_name :=
  try_call_gemini "Error calculating match score: "
    (template "get_match_score" [job_desc]) pdf_content_parts model_name.

Definition optimize_resume job_desc pdf_content_parts language model_name :=
  try_call_gemini "Error optimizing resume: "
    (template "optimize_resume" [language; job_desc]) pdf_content_parts model_name.

Definition check_grammar pdf_content_parts model_name :=
  try_call_gemini "Error checking grammar: "
    (template "check_grammar" []) pdf_content_parts model_name.

Definition keyword_density job_desc pdf_content_parts model_name :=
  try_call_gemini "Error analyzing keyword density: "
    (template "keyword_density" [job_desc]) pdf_content_parts model_name.

Definition suggest_roles pdf_content_parts model_name :=
  try_call_gemini "Error suggesting roles: "
    (template "suggest_roles" []) pdf_content_parts model_name.

Definition section_check pdf_content_parts model_name :=
  try_call_gemini "Error checking sections: "
    (template "section_check" []) pdf_content_parts model_name.

Definition generate_cover_letter
  job_desc pdf_content_parts company_name hiring_manager model_name :=
  try_call_gemini "Error generating cover letter: "
    (template "generate_cover_letter"
       [job_desc; or_else company_name "[Company Name]";
        or_else hiring_manager "[Hiring Manager]"])
    pdf_content_parts model_name.

Definition salary_insights pdf_content_parts location experience_level model_name :=
  try_call_gemini "Error generating salary insights: "
    (template "salary_insights"
       [or_else location "General Market";
        or_else experience_level "Based on Resume"])
    pdf_content_parts model_name.

Definition skill_gap_analysis resume_content_parts job_desc model_name :=
  try_call_gemini "Error performing skill gap analysis: "
    (template "skill_gap_analysis" [job_desc]) resume_content_parts model_name.

Definition generate_interview_questions resume_content_parts job_desc model_name :=
  try_call_gemini "Error generating interview questions: "
    (template "generate_interview_questions" [job_desc]) resume_content_parts model_name.

Definition generate_branding_statement resume_content_parts target_role_type model_name :=
  try_call_gemini "Error generating branding statement: "
    (template "generate_branding_statement" [target_role_type])
    resume_content_parts model_name.

End Wrapper.

End AiService.

(** ** Values read from and written to the JSON store *)

Module PyVal.

(** The Python objects [json.load] builds: [None], booleans, numbers,
    strings, lists, and dictionaries with string keys in insertion order. *)
#[warnings="-register-all"]
Inductive pyval : Type :=
| PNone
| PBool (b : bool)
| PInt (n : Z)
| PStr (s : string)
| PList (items : list pyval)
| PDict (fields : list (string * pyval)).

Definition of_optstr (x : option string) : pyval :=
  match x with
  | Some s => PStr s
  | None => PNone
  end.

(** [d.get(key)] on the fields of a dictionary; a miss is Python's [None]. *)
Fixpoint dict_get (key : string) (fields : list (string * pyval)) : option pyval :=
  match fields with
  | [] => None
  | (k, v) :: rest => if String.eqb k key then Some v else dict_get key rest
  end.

Definition has_key (key : string) (fields : list (string * pyval)) : bool :=
  match dict_get key fields with
  | Some _ => true
  | None => false
  end.

(** [d[key] = v]: an existing key keeps its place, a new one goes last. *)
Fixpoint dict_set (key : string) (v : pyval) (fields : list (string * pyval))
  : list (string * pyval) :=
  match fields with
  | [] => [(key, v)]
  | (k, old) :: rest =>
      if String.eqb k key then (k, v) :: rest
      else (k, old) :: dict_set key v rest
  end.

(** [v == x] where [x] is a string or [None]: values of another type are
    never equal to [x]. *)
Definition eq_optstr (v : pyval) (x : option string) : bool :=
  match v, x with
  | PStr s, Some s' => String.eqb s s'
  | PNone, None => true
  | _, _ => false
  end.

(** Truth value of an argument that is a string or [None]. *)
Definition truthy_optstr (x : option string) : bool :=
  match x with
  | Some s => truthy s
  | None => false
  end.

Definition is_str (wanted : string) (v : pyval) : bool :=
  match v with
  | PStr s => String.eqb s wanted
  | _ => false
  end.

Fixpoint chars (s : string) : list pyval :=
  match s with
  | EmptyString => []
  | String c rest => PStr (String c EmptyString) :: chars rest
  end.

(** The exceptions the store operations can let escape. *)
Inductive exn : Type :=
| TypeError | AttributeError | KeyError | UnicodeDecodeError | RecursionError.

Inductive result (A : Type) : Type :=
| Ok (a : A)
| Raise (e : exn).

Arguments Ok {A} a.
Arguments Raise {A} e.

Definition bind {A B : Type} (r : result A) (k : A -> result B) : result B :=
  match r with
  | Ok a => k a
  | Raise e => Raise e
  end.

(** [for x in v]: the items of a list, the keys of a dictionary, the
    characters of a string; anything else is not iterable. *)
Definition iterate (v : pyval) : result (list pyval) :=
  match v with
  | PList items => Ok items
  | PDict fields => Ok (map (fun kv => PStr (fst kv)) fields)
  | PStr s => Ok (chars s)
  | PNone | PBool _ | PInt _ => Raise TypeError
  end.

(** [key in v] for a string [key]: key lookup on a dictionary, membership
    on a list, substring test on a string, [TypeError] otherwise. *)
Definition str_in (key : string) (v : pyval) : result bool :=
  match v with
  | PDict fields => Ok (has_key key fields)
  | PList items => Ok (existsb (is_str key) items)
  | PStr s => Ok (contains key s)
  | PNone | PBool _ | PInt _ => Raise TypeError
  end.

(** [v[key]] for a string [key]. *)
Definition subscript (v : pyval) (key : string) : result pyval :=
  match v with
  | PDict fields =>
      match dict_get key fields with
      | Some x => Ok x
      | None => Raise KeyError
      end
  | _ => Raise TypeError
  end.

(** [v.append(x)]: only lists have the method. *)
Definition append (v x : pyval) : result pyval :=
  match v with
  | PList items => Ok (PList (items ++ [x])%list)
  | _ => Raise AttributeError
  end.

End PyVal.

Import PyVal.

Declare Scope result_scope.
Notation "x <- r ;; k" := (bind r (fun x => k))
  (at level 61, r at next level, right associativity) : result_scope.
Open Scope result_scope.

(** ** The [datetime] module *)

(** What [datetime.datetime.fromisoformat] makes of a string. *)
Inductive parsed : Type :=
| Invalid               (* [ValueError] *)
| Naive (t : Z)         (* a datetime without time zone *)
| Aware (t : Z).        (* a datetime with a UTC offset *)

(** A naive datetime is its number of microseconds on the local time line.
    [isoformat] and [fromisoformat] are the library's. *)
Class Datetime : Type := {
  isoformat : Z -> string;
  fromisoformat : string -> parsed
}.

Definition microseconds_per_day : Z := 86400 * 1000000.

(** [(a - b).days]: a [timedelta] keeps the floor of the number of days. *)
Definition timedelta_days (a b : Z) : Z := (a - b) / microseconds_per_day.

(** ** db_operations.py *)

Module DbOperations.

Definition DB_FILE : string := "app_data.json".

(** The store file as [os.path.exists], [open] and [json.load] find it.
    [Escapes e] is a file on which reading raises an exception that is
    neither [JSONDecodeError] nor [IOError]: [UnicodeDecodeError] for bytes
    that are no valid text, [RecursionError] for JSON nested too deeply. *)
Inductive store_file : Type :=
| Missing                       (* [os.path.exists(DB_FILE)] is false *)
| Unreadable (str_e : string)   (* reading raises [IOError] *)
| Malformed                     (* [json.load] raises [JSONDecodeError] *)
| Escapes (e : exn)             (* reading raises [e], which no handler catches *)
| Holds (data : pyval).         (* [json.load] returns [data] *)

(** How writing the store fails.  [open(DB_FILE, "w")] truncates the file
    before [json.dump] writes: when [open] itself raises the file is as it
    was, when the [IOError] comes while writing the file is left empty or
    with the beginning of the JSON text, which [json.load] rejects. *)
Inductive write_failure : Type :=
| CannotOpen (str_e : string)
| BreaksOff (str_e : string).

(** A message shown through Streamlit; [about] is the object interpolated
    at the end of the message. *)
Inductive ui_event : Type :=
| St_error (msg : string)
| Sidebar_info (msg : string)
| Sidebar_warning (msg : string) (about : pyval).

(** What the module reads and changes: the store file, whether and how
    writing it fails (with the text of the [IOError]), the clock, and the
    messages shown so far. *)
Record world : Type := World {
  db_file : store_file;
  write_error : option write_failure;
  clock : Z;
  shown : list ui_event
}.

Definition show (e : ui_event) (w : world) : world :=
  {| db_file := db_file w; write_error := write_error w;
     clock := clock w; shown := (shown w ++ [e])%list |}.

Definition write (data : pyval) (w : world) : world :=
  {| db_file := Holds data; write_error := write_error w;
     clock := clock w; shown := shown w |}.

Definition empty_db : pyval :=
  PDict [("users", PList []); ("history", PList [])].

(** [isinstance(data, dict) and "users" in data and "history" in data] *)
Definition expected_format (data : pyval) : bool :=
  match data with
  | PDict fields => has_key "users" fields && has_key "history" fields
  | _ => false
  end.

Definition load_db_data (w : world) : result pyval * world :=
  match db_file w with
  | Missing => (Ok empty_db, w)
  | Unreadable str_e =>
      (Ok empty_db,
       show (St_error ("Error reading '" ++ DB_FILE ++ "': " ++ str_e
               ++ ". Please check file permissions and ensure the file is not locked.")) w)
  | Malformed =>
      (Ok empty_db,
       show (St_error ("Error: '" ++ DB_FILE
               ++ "' is corrupted or empty. It will be re-initialized upon the next save.")) w)
  | Escapes e => (Raise e, w)
  | Holds data =>
      if expected_format data then (Ok data, w)
      else
        (Ok empty_db,
         show (St_error ("Error: '" ++ DB_FILE
                 ++ "' contains valid JSON but is not in the expected dictionary format. Re-initializing database.")) w)
  end.

(** The file after a write that broke off. *)
Definition truncated (w : world) : world :=
  {| db_file := Malformed; write_error := write_error w;
     clock := clock w; shown := shown w |}.

Definition write_error_message (str_e : string) : ui_event :=
  St_error ("Error writing to '" ++ DB_FILE ++ "': " ++ str_e
    ++ ". Ensure the application has write permissions to this directory.").

Definition save_db_data (data : pyval) (w : world) : world :=
  match write_error w with
  | None => write data w
  | Some (CannotOpen str_e) => show (write_error_message str_e) w
  | Some (BreaksOff str_e) => show (write_error_message str_e) (truncated w)
  end.

(** The loop [for user in ...: if user.get("email") == user_email: ...]. *)
Fixpoint find_user (users : list pyval) (user_email : option string) : result bool :=
  match users with
  | [] => Ok false
  | PDict fields :: rest =>
      let email := match dict_get "email" fields with Some v => v | None => PNone end in
      if eq_optstr email user_email then Ok true
      else find_user rest user_email
  | _ :: _ => Raise AttributeError
  end.

(** [text[:limit] + "..." if text and len(text) > limit else text] *)
Definition excerpt (limit : nat) (text : option string) : option string :=
  match text with
  | Some s =>
      if truthy s && (limit <? String.length s)%nat
      then Some (substring 0 limit s ++ "...")
      else text
  | None => None
  end.

Section WithDatetime.

Context {datetime : Datetime}.

Definition history_entry
  (now : Z) (user_name user_email analysis_type job_description ai_response : option string)
  : pyval :=
  PDict [("timestamp", PStr (isoformat now));
         ("name", of_optstr user_name);
         ("email", of_optstr user_email);
         ("analysis_type", of_optstr analysis_type);
         ("job_description_excerpt", of_optstr (excerpt 200 job_description));
         ("ai_response_excerpt", of_optstr (excerpt 500 ai_response))].

Definition user_record (user_name user_email : option string) : pyval :=
  PDict [("name", of_optstr user_name); ("email", of_optstr user_email)].

(** The in-memory update of [record_interaction]: everything between
    [load_db_data()] and [save_db_data(db_data)]. *)
Definition updated_db
  (db_data : list (string * pyval)) (now : Z)
  (user_name user_email analysis_type job_description ai_response : option string)
  : result (list (string * pyval)) :=
  users <- subscript (PDict db_data) "users" ;;
  each_user <- iterate users ;;
  user_exists <- find_user each_user user_email ;;
  db_data <-
    (if truthy_optstr user_email && negb user_exists
     then users' <- append users (user_record user_name user_email) ;;
          Ok (dict_set "users" users' db_data)
     else Ok db_data) ;;
  history <- subscript (PDict db_data) "history" ;;
  history' <- append history
    (history_entry now user_name user_email analysis_type job_description ai_response) ;;
  Ok (dict_set "history" history' db_data).

Definition record_interaction
  (user_name user_email analysis_type job_description ai_response : option string)
  (w : world) : result unit * world :=
  let (loaded, w) := load_db_data w in
  match loaded with
  | Raise e => (Raise e, w)
  | Ok (PDict db_data) =>
      match updated_db db_data (clock w) user_name user_email analysis_type
              job_description ai_response with
      | Ok db_data' =>
          let w := save_db_data (PDict db_data') w in
          (Ok tt,
           show (Sidebar_info ("Interaction recorded: "
                   ++ match analysis_type with Some s => s | None => "None" end)) w)
      | Raise e => (Raise e, w)
      end
  | Ok _ => (Raise TypeError, w)
  end.

(** What the loop of [clean_old_history] does with one entry. *)
Inductive verdict : Type :=
| Kept (warning : option ui_event)   (* appended to [cleaned_history] *)
| Expired                            (* [cleanup_occurred = True] *)
| Skipped (warning : ui_event).      (* [except TypeError: ... continue] *)

Definition not_a_dictionary (entry : pyval) : verdict :=
  Skipped (Sidebar_warning "Skipping malformed history entry (not a dictionary): " entry).

(** The body of [for entry in db_data_to_clean["history"]]. *)
Definition examine (current_time days_threshold : Z) (entry : pyval) : verdict :=
  match str_in "timestamp" entry with
  | Raise _ => not_a_dictionary entry
  | Ok false =>
      Kept (Some (Sidebar_warning
        "Skipping history entry with missing/malformed timestamp, keeping it: " entry))
  | Ok true =>
      match subscript entry "timestamp" with
      | Raise _ => not_a_dictionary entry
          (* a string or a list takes no string index: [TypeError] *)
      | Ok (PStr timestamp) =>
          match fromisoformat timestamp with
          | Invalid =>
              Kept (Some (Sidebar_warning
                "Skipping history entry with unparsable timestamp, keeping it: "
                (PStr timestamp)))
          | Naive dt_obj =>
              if timedelta_days current_time dt_obj <=? days_threshold
              then Kept None
              else Expired
          | Aware _ => not_a_dictionary entry
              (* a naive minus an aware datetime: [TypeError] *)
          end
      | Ok _ => not_a_dictionary entry
          (* [fromisoformat] of a value that is no string: [TypeError] *)
      end
  end.

(** The whole loop: [cleaned_history], [cleanup_occurred] and the
    warnings, in order. *)
Fixpoint sweep (current_time days_threshold : Z) (history : list pyval)
  : list pyval * bool * list ui_event :=
  match history with
  | [] => ([], false, [])
  | entry :: rest =>
      let '(cleaned_history, cleanup_occurred, warnings) :=
        sweep current_time days_threshold rest in
      match examine current_time days_threshold entry with
      | Kept None => (entry :: cleaned_history, cleanup_occurred, warnings)
      | Kept (Some warning) =>
          (entry :: cleaned_history, cleanup_occurred, warning :: warnings)
      | Expired => (cleaned_history, true, warnings)
      | Skipped warning => (cleaned_history, cleanup_occurred, warning :: warnings)
      end
  end.

(** [clean_old_history] returns its result, the dictionary it was given
    as the call leaves it, and the world. *)
Definition clean_old_history
  (db_data_to_clean : pyval) (days_threshold : Z) (w : world)
  : result bool * pyval * world :=
  match history <- subscript db_data_to_clean "history" ;; iterate history with
  | Raise e => (Raise e, db_data_to_clean, w)
  | Ok entries =>
      let '(cleaned_history, cleanup_occurred, warnings) :=
        sweep (clock w) days_threshold entries in
      let w := fold_left (fun w e => show e w) warnings w in
      if cleanup_occurred then
        match db_data_to_clean with
        | PDict fields =>
            let db_data := PDict (dict_set "history" (PList cleaned_history) fields) in
            (Ok true, db_data, save_db_data db_data w)
        | _ => (Raise TypeError, db_data_to_clean, w)
        end
      else (Ok false, db_data_to_clean, w)
  end.

End WithDatetime.

End DbOperations.

(** ** utils.py: [generate_pdf_from_markdown] *)

Module Utils.

(** What [pdfkit.from_string(html, path)] comes to: the PDF bytes it
    leaves in the file at [path], or an exception. *)
Inductive rendering : Type :=
| Pdf (bytes : string)
| RenderError (str_e : string).

(** The libraries behind the renderer.  [template] is the f-string that
    wraps the converted markdown in the styled page; [mkstemp] is the name
    [NamedTemporaryFile(delete=False, suffix=".pdf")] picks given the files
    that exist; [configuration path] is [inl config], or [inr str_e] when
    it raises (no executable at the configured path). *)
Class Renderer : Type := {
  markdown : string -> string;
  template : string -> string -> string -> Z -> string;
  mkstemp : list string -> string;
  configuration : string -> string + string;
  from_string : string -> option string -> rendering
}.

(** What the call reads and changes: the files that exist, the clock and
    the errors shown. *)
Record world : Type := World {
  files : list string;
  clock : Z;
  errors : list string
}.

Definition st_error (msg : string) (w : world) : world :=
  {| files := files w; clock := clock w; errors := (errors w ++ [msg])%list |}.

Definition create (path : string) (w : world) : world :=
  {| files := path :: files w; clock := clock w; errors := errors w |}.

(** [os.unlink(path)] *)
Definition unlink (path : string) (w : world) : world :=
  {| files := filter (fun f => negb (String.eqb f path)) (files w);
     clock := clock w; errors := errors w |}.

Definition exists_file (path : string) (w : world) : bool :=
  existsb (String.eqb path) (files w).

Definition failure_message (str_e : string) : string :=
  "Error generating PDF: " ++ str_e
    ++ ". Please ensure 'wkhtmltopdf' is installed and in your system's PATH, or configure WKHTMLTOPDF_PATH in config.py.".

Section Render.

Context {renderer : Renderer}.

(** The constant of [config.py]; the repository ships it as [None]. *)
Variable WKHTMLTOPDF_PATH : option string.

(** The [with NamedTemporaryFile(...) as tmp_pdf:] block and what follows
    it inside the [try]. *)
Definition render_to_temporary_file
  (full_html : string) (config : option string) (w : world)
  : option string * world :=
  let tmp_pdf := mkstemp (files w) in
  let w := create tmp_pdf w in
  match from_string full_html config with
  | Pdf pdf_data => (Some pdf_data, unlink tmp_pdf w)
  | RenderError str_e => (None, st_error (failure_message str_e) w)
  end.

Definition generate_pdf_from_markdown
  (markdown_content title footer_text filename : string) (w : world)
  : option string * world :=
  let html_content := markdown markdown_content in
  let full_html := template title html_content footer_text (clock w) in
  match WKHTMLTOPDF_PATH with
  | Some path =>
      if truthy path then
        match configuration path with
        | inl config => render_to_temporary_file full_html (Some config) w
        | inr str_e => (None, st_error (failure_message str_e) w)
        end
      else render_to_temporary_file full_html None w
  | None => render_to_temporary_file full_html None w
  end.

End Render.

End Utils.

(** ** Observations on a run of [call_gemini] *)

Module Trace.

Import AiService.

(** The requests and the sleeps of a trace, in order, without the
    messages. *)
Inductive beat : Type :=
| Request
| Wait (seconds : Z).

Fixpoint rhythm (evs : list event) : list beat :=
  match evs with
  | [] => []
  | Generate _ _ :: rest => Request :: rhythm rest
  | Sleep seconds :: rest => Wait seconds :: rhythm rest
  | (Warning _ | Error _) :: rest => rhythm rest
  end.

Fixpoint asks (beats : list beat) : nat :=
  match beats with
  | [] => 0
  | Request :: rest => S (asks rest)
  | Wait _ :: rest => asks rest
  end.

Fixpoint waits (beats : list beat) : list Z :=
  match beats with
  | [] => []
  | Request :: rest => waits rest
  | Wait seconds :: rest => seconds :: waits rest
  end.

(** How many requests a run issued, and the durations it slept. *)
Definition requests (evs : list event) : nat := asks (rhythm evs).
Definition sleeps (evs : list event) : list Z := waits (rhythm evs).

(** [count] attempts in a row, from attempt [first] on, each followed by
    its backoff of [2 ^ attempt] seconds. *)
Definition backed_off (first count : nat) : list beat :=
  flat_map (fun attempt => [Request; Wait (2 ^ Z.of_nat attempt)]) (seq first count).

(** The replies, as the wrapper classifies them. *)
Definition succeeded (r : reply) : bool :=
  match r with
  | Response text => truthy text
  | _ => false
  end.


End Trace.

(** ** The twelve analysis functions, as one family *)

Module Analysis.

Import AiService.

Inductive kind : Type :=
| Analyze_resume | Get_match_score | Optimize_resume | Check_grammar
| Keyword_density | Suggest_roles | Section_check | Generate_cover_letter
| Salary_insights | Skill_gap_analysis | Generate_interview_questions
| Generate_branding_statement.

(** The arguments any of the functions takes. *)
Record arguments : Type := Arguments {
  job_desc : string;
  content_parts : list image_part;
  language : string;
  company_name : string;
  hiring_manager : string;
  location : string;
  experience_level : string;
  target_role_type : string;
  model_name : string
}.

(** The words after ["Error "] in the string each function returns when
    the wrapper raises. *)
Definition doing (k : kind) : string :=
  match k with
  | Analyze_resume => "analyzing resume"
  | Get_match_score => "calculating match score"
  | Optimize_resume => "optimizing resume"
  | Check_grammar => "checking grammar"
  | Keyword_density => "analyzing keyword density"
  | Suggest_roles => "suggesting roles"
  | Section_check => "checking sections"
  | Generate_cover_letter => "generating cover letter"
  | Salary_insights => "generating salary insights"
  | Skill_gap_analysis => "performing skill gap analysis"
  | Generate_interview_questions => "generating interview questions"
  | Generate_branding_statement => "generating branding statement"
  end.

Section Run.

Variable header : first_header.
Variable generate_content : Z -> string -> list content -> reply.
Variable template : string -> list string -> string.

(** Calls the function named by [k] on its own arguments. *)
Definition run (k : kind) (a : arguments) : outcome string * list event :=
  match k with
  | Analyze_resume =>
      analyze_resume header generate_content template
        (job_desc a) (content_parts a) (model_name a)
  | Get_match_score =>
      get_match_score header generate_content template
        (job_desc a) (content_parts a) (model_name a)
  | Optimize_resume =>
      optimize_resume header generate_content template
        (job_desc a) (content_parts a) (language a) (model_name a)
  | Check_grammar =>
      check_grammar header generate_content template (content_parts a) (model_name a)
  | Keyword_density =>
      keyword_density header generate_content template
        (job_desc a) (content_parts a) (model_name a)
  | Suggest_roles =>
      suggest_roles header generate_content template (content_parts a) (model_name a)
  | Section_check =>
      section_check header generate_content template (content_parts a) (model_name a)
  | Generate_cover_letter =>
      generate_cover_letter header generate_content template
        (job_desc a) (content_parts a) (company_name a) (hiring_manager a) (model_name a)
  | Salary_insights =>
      salary_insights header generate_content template
        (content_parts a) (location a) (experience_level a) (model_name a)
  | Skill_gap_analysis =>
      skill_gap_analysis header generate_content template
        (content_parts a) (job_desc a) (model_name a)
  | Generate_interview_questions =>
      generate_interview_questions header generate_content template
        (content_parts a) (job_desc a) (model_name a)
  | Generate_branding_statement =>
      generate_branding_statement header generate_content template
        (content_parts a) (target_role_type a) (model_name a)
  end.

End Run.

End Analysis.

(** ** Instances of the libraries, for evaluating the code on examples *)

Module Calendar.

(** Days from 1970-01-01 to a date of the proleptic Gregorian calendar,
    and back. *)
Definition days_from_civil (year month day : Z) : Z :=
  let y := if month <=? 2 then year - 1 else year in
  let era := y / 400 in
  let yoe := y - era * 400 in
  let mp := if 2 <? month then month - 3 else month + 9 in
  let doy := (153 * mp + 2) / 5 + day - 1 in
  let doe := yoe * 365 + yoe / 4 - yoe / 100 + doy in
  era * 146097 + doe - 719468.

Definition civil_from_days (days : Z) : Z * Z * Z :=
  let z := days + 719468 in
  let era := z / 146097 in
  let doe := z - era * 146097 in
  let yoe := (doe - doe / 1460 + doe / 36524 - doe / 146096) / 365 in
  let doy := doe - (365 * yoe + yoe / 4 - yoe / 100) in
  let mp := (5 * doy + 2) / 153 in
  let day := doy - (153 * mp + 2) / 5 + 1 in
  let month := if mp <? 10 then mp + 3 else mp - 9 in
  let year := yoe + era * 400 + (if month <=? 2 then 1 else 0) in
  (year, month, day).

Definition digit (c : ascii) : option Z :=
  let n := Z.of_nat (nat_of_ascii c) in
  if (48 <=? n) && (n <=? 57) then Some (n - 48) else None.

Fixpoint number (s : string) (acc : Z) : option Z :=
  match s with
  | EmptyString => Some acc
  | String c rest =>
      match digit c with
      | Some d => number rest (10 * acc + d)
      | None => None
      end
  end.

(** The [len] digits of [s] from position [start]. *)
Definition field (start len : nat) (s : string) : option Z :=
  let digits := substring start len s in
  if (String.length digits =? len)%nat then number digits 0 else None.

Definition separator (position : nat) (expected s : string) : bool :=
  String.eqb (substring position 1 s) expected.

Fixpoint zeros (n : nat) : string :=
  match n with
  | O => EmptyString
  | S n' => String "0" (zeros n')
  end.

Definition padded (width : nat) (n : Z) : string :=
  let digits := str_of_int n in
  zeros (width - String.length digits) ++ digits.

(** [YYYY-MM-DDTHH:MM:SS], with [.ffffff] when the microseconds are not
    zero: what [datetime.isoformat()] prints for a naive datetime. *)
Definition print (t : Z) : string :=
  let '(year, month, day) := civil_from_days (t / microseconds_per_day) in
  let within := t mod microseconds_per_day in
  let seconds := within / 1000000 in
  let micro := within mod 1000000 in
  padded 4 year ++ "-" ++ padded 2 month ++ "-" ++ padded 2 day ++ "T"
    ++ padded 2 (seconds / 3600) ++ ":" ++ padded 2 (seconds / 60 mod 60)
    ++ ":" ++ padded 2 (seconds mod 60)
    ++ (if micro =? 0 then "" else "." ++ padded 6 micro).

Definition assemble (year month day hour minute second micro : Z) : parsed :=
  let days := days_from_civil year month day in
  let '(year', month', day') := civil_from_days days in
  if (year' =? year) && (month' =? month) && (day' =? day)
     && (hour <? 24) && (minute <? 60) && (second <? 60)
  then Naive (days * microseconds_per_day
              + ((hour * 60 + minute) * 60 + second) * 1000000 + micro)
  else Invalid.

(** Reads back the two formats [print] writes; any other string is
    [Invalid]. *)
Definition parse (s : string) : parsed :=
  if separator 4 "-" s && separator 7 "-" s && separator 10 "T" s
     && separator 13 ":" s && separator 16 ":" s
  then
    match field 0 4 s, field 5 2 s, field 8 2 s,
          field 11 2 s, field 14 2 s, field 17 2 s with
    | Some year, Some month, Some day, Some hour, Some minute, Some second =>
        if (String.length s =? 19)%nat
        then assemble year month day hour minute second 0
        else if (String.length s =? 26)%nat && separator 19 "." s
        then match field 20 6 s with
             | Some micro => assemble year month day hour minute second micro
             | None => Invalid
             end
        else Invalid
    | _, _, _, _, _, _ => Invalid
    end
  else Invalid.

Definition iso_clock : Datetime :=
  {| isoformat := print; fromisoformat := parse |}.

(** Noon of 11 April 2024, in microseconds. *)
Definition noon_2024_04_11 : Z :=
  days_from_civil 2024 4 11 * microseconds_per_day + 12 * 3600 * 1000000.

End Calendar.

(** Scripts for the remote model and for the renderer. *)

Module Script.

Import AiService Utils.

Definition always_empty : Z -> string -> list content -> reply :=
  fun _ _ _ => NoResponse.

(** The released client: the text of the [AttributeError] that the lookup
    of [core] in [genai.types] raises. *)
Definition released_client : first_header :=
  NoSuchAttribute "module 'google.generativeai.types' has no attribute 'core'".

(** The exceptions of the released client on a rate limit and on an expired
    key; neither is an instance of a class of [genai.types]. *)
Definition always_rate_limited : Z -> string -> list content -> reply :=
  fun _ _ _ => Raises "429 Resource has been exhausted (e.g. check quota)." None.

Definition expired_key : Z -> string -> list content -> reply :=
  fun _ _ _ => Raises "400 API key expired. Please renew the API key." None.

(** A model that answers the first request. *)
Definition answers : Z -> string -> list content -> reply :=
  fun _ _ _ => Response "A strong resume.".

Definition plain_template : string -> list string -> string :=
  fun name args => String.concat " " (name :: args).

(** A renderer whose conversion fails, as when [wkhtmltopdf] is not
    installed, and one whose conversion succeeds. *)
Definition temporary_name : string := "/tmp/tmpk3v9x2aq.pdf".

Definition missing_wkhtmltopdf : Renderer :=
  {| markdown := fun text => text;
     template := fun title html_content footer_text _ =>
       title ++ html_content ++ footer_text;
     mkstemp := fun _ => temporary_name;
     configuration := fun path => inl path;
     from_string := fun _ _ => RenderError "No wkhtmltopdf executable found" |}.

Definition working_wkhtmltopdf : Renderer :=
  {| markdown := fun text => text;
     template := fun title html_content footer_text _ =>
       title ++ html_content ++ footer_text;
     mkstemp := fun _ => temporary_name;
     configuration := fun path => inl path;
     from_string := fun html _ => Pdf ("%PDF-1.4 " ++ html) |}.

End Script.

(** ** Observations on the store *)

Module Store.

Import DbOperations.

(** The shape [{"users": [...], "history": [...]}]: a dictionary whose
    two keys hold lists. *)
Definition list_shaped (data : pyval) : bool :=
  match data with
  | PDict fields =>
      match dict_get "users" fields, dict_get "history" fields with
      | Some (PList _), Some (PList _) => true
      | _, _ => false
      end
  | _ => false
  end.

(** [user.get("email")] for an element of the users list. *)
Definition email_of (user : pyval) : pyval :=
  match user with
  | PDict fields =>
      match dict_get "email" fields with
      | Some v => v
      | None => PNone
      end
  | _ => PNone
  end.

Definition is_dict (v : pyval) : bool :=
  match v with
  | PDict _ => true
  | _ => false
  end.

(** A world whose store file holds [data], at noon of 11 April 2024, with
    nothing shown yet. *)
Definition holding (data : pyval) : world :=
  {| db_file := Holds data; write_error := None;
     clock := Calendar.noon_2024_04_11; shown := [] |}.

Definition stamped (timestamp : string) : pyval :=
  PDict [("timestamp", PStr timestamp); ("name", PStr "Ada");
         ("email", PStr "ada@example.org"); ("analysis_type", PStr "Resume Analysis");
         ("job_description_excerpt", PStr "Engineer");
         ("ai_response_excerpt", PStr "Strong match")].

(** 101 days, 1 day and 100 days 23 hours before the clock of [holding]. *)
Definition entry_101_days_old : pyval := stamped "2024-01-01T12:00:00".
Definition entry_1_day_old : pyval := stamped "2024-04-10T12:00:00".

Definition with_history (history : list pyval) : pyval :=
  PDict [("users", PList []); ("history", PList history)].

(** A text of [n] characters. *)
Definition text_of_length (n : nat) : string :=
  String.concat "" (repeat "x" n).

End Store.

(** ** utils.py: [sanitize_filename] *)

Module Filenames.

Section Sanitize.

(** [c.isalnum()] for a character, as the [str] type decides it. *)
Variable isalnum : ascii -> bool.

(** [c.isalnum() or c in [' ', '_', '-']] *)
Definition allowed (c : ascii) : bool :=
  isalnum c || existsb (Ascii.eqb c) [" "; "_"; "-"]%char.

(** The generator joined by [""]: a character that is not allowed becomes
    an underscore. *)
Fixpoint replaced (name : string) : string :=
  match name with
  | EmptyString => EmptyString
  | String c rest => String (if allowed c then c else "_"%char) (replaced rest)
  end.

(** [s.lstrip("_")] and [s.rstrip("_")]. *)
Fixpoint lstrip (s : string) : string :=
  match s with
  | EmptyString => EmptyString
  | String c rest => if Ascii.eqb c "_" then lstrip rest else s
  end.

Fixpoint rstrip (s : string) : string :=
  match s with
  | EmptyString => EmptyString
  | String c rest =>
      match rstrip rest with
      | EmptyString => if Ascii.eqb c "_" then EmptyString else String c EmptyString
      | kept => String c kept
      end
  end.

(** [s.strip("_")] *)
Definition strip (s : string) : string := rstrip (lstrip s).

Definition sanitize_filename (name : string) : string :=
  strip (replaced name).

End Sanitize.

Definition underscore (c : ascii) : bool := Ascii.eqb c "_".

(** [isalnum] on the ASCII characters: digits and letters. *)
Definition ascii_isalnum (c : ascii) : bool :=
  let n := nat_of_ascii c in
  ((48 <=? n) && (n <=? 57) || (65 <=? n) && (n <=? 90)
   || (97 <=? n) && (n <=? 122))%nat.

Fixpoint all_chars (p : ascii -> bool) (s : string) : bool :=
  match s with
  | EmptyString => true
  | String c rest => p c && all_chars p rest
  end.

Definition first_char (s : string) : option ascii :=
  match s with
  | EmptyString => None
  | String c _ => Some c
  end.

Fixpoint last_char (s : string) : option ascii :=
  match s with
  | EmptyString => None
  | String c EmptyString => Some c
  | String _ rest => last_char rest
  end.

End Filenames.

(** ** utils.py: [pdf_to_base64_images] *)

Module PdfImages.

Import AiService.

(** The libraries behind the conversion: [pdf2image.convert_from_bytes]
    (given the bytes and the Poppler path, if one is configured),
    [image.save(..., format='JPEG', optimize=True, quality=85)] followed by
    [getvalue()], and [base64.b64encode(...).decode('utf-8')].  A result
    [inr str_e] is an exception with that text. *)
Class Poppler : Type := {
  page : Type;
  convert_from_bytes : string -> option string -> list page + string;
  save_jpeg : page -> string + string;
  b64encode : string -> string
}.

Inductive message : Type :=
| St_error (msg : string)
| St_success (msg : string).

Definition conversion_error (str_e : string) : message :=
  St_error ("Error converting PDF to images: " ++ str_e
    ++ ". Please ensure Poppler is installed and configured correctly (especially for Windows users, check POPPLER_PATH).").

Section Convert.

Context {poppler : Poppler}.

(** Whether a page can be saved as JPEG, and the part built from it. *)
Definition savable (image : page) : bool :=
  match save_jpeg image with
  | inl _ => true
  | inr _ => false
  end.

Definition part_of (image : page) : image_part :=
  {| mime_type := "image/jpeg";
     data := match save_jpeg image with
             | inl img_byte_arr => b64encode img_byte_arr
             | inr _ => EmptyString
             end |}.

(** The constant of [config.py]; the repository ships it as [None]. *)
Variable POPPLER_PATH : option string.

(** [for i, image in enumerate(images)], from index [i] on: the parts
    appended, or the exception of the first page that cannot be saved. *)
Fixpoint encode_pages (i pages_to_process : Z) (images : list page)
  : list image_part + string :=
  match images with
  | [] => inl []
  | image :: later =>
      if pages_to_process <=? i then inl []
      else
        match save_jpeg image with
        | inr str_e => inr str_e
        | inl img_byte_arr =>
            match encode_pages (i + 1) pages_to_process later with
            | inr str_e => inr str_e
            | inl parts =>
                inl ({| mime_type := "image/jpeg"; data := b64encode img_byte_arr |}
                       :: parts)
            end
        end
  end.

(** [uploaded_file] is [None] or a file whose [read()] gives its bytes. *)
Definition pdf_to_base64_images (uploaded_file : option string) (pages_to_process : Z)
  : list image_part * list message :=
  match uploaded_file with
  | None => ([], [St_error "No file provided for PDF to image conversion."])
  | Some pdf_bytes =>
      let poppler_path :=
        match POPPLER_PATH with
        | Some path => if truthy path then Some path else None
        | None => None
        end in
      match convert_from_bytes pdf_bytes poppler_path with
      | inr str_e => ([], [conversion_error str_e])
      | inl images =>
          match encode_pages 0 pages_to_process images with
          | inr str_e => ([], [conversion_error str_e])
          | inl images_parts =>
              (images_parts,
               [St_success ("Successfully processed "
                  ++ str_of_int (Z.of_nat (List.length images_parts))
                  ++ " page(s) from the PDF.")])
          end
      end
  end.

End Convert.

(** A converter for the examples: a PDF is its pages separated by ["|"],
    a page that is empty cannot be saved. *)
Fixpoint split_pages (s : string) (current : string) : list string :=
  match s with
  | EmptyString => [current]
  | String c rest =>
      if Ascii.eqb c "|" then current :: split_pages rest EmptyString
      else split_pages rest (current ++ String c EmptyString)
  end.

Definition toy_poppler : Poppler :=
  {| page := string;
     convert_from_bytes := fun pdf_bytes _ =>
       if truthy pdf_bytes then inl (split_pages pdf_bytes EmptyString)
       else inr "Unable to get page count.";
     save_jpeg := fun p => if truthy p then inl ("JPEG:" ++ p) else inr "cannot write empty image";
     b64encode := fun bytes => "b64:" ++ bytes |}.

End PdfImages.

(** ** Further observations *)

Module Outcomes.

Import AiService DbOperations.

(** The seconds slept in all. *)
Definition total (seconds : list Z) : Z := fold_right Z.add 0 seconds.

Definition is_request (e : event) : bool :=
  match e with
  | Generate _ _ => true
  | _ => false
  end.

Section WithDatetime.

Context {datetime : Datetime}.

(** Whether the loop of [clean_old_history] appends the entry to
    [cleaned_history], and whether it counts it as old. *)
Definition keeps (current_time days_threshold : Z) (entry : pyval) : bool :=
  match examine current_time days_threshold entry with
  | Kept _ => true
  | Expired | Skipped _ => false
  end.

Definition expires (current_time days_threshold : Z) (entry : pyval) : bool :=
  match examine current_time days_threshold entry with
  | Expired => true
  | Kept _ | Skipped _ => false
  end.

End WithDatetime.

(** The store is unusable: [load_db_data] starts from the empty one. *)
Definition unusable (f : store_file) : bool :=
  match f with
  | Holds data => negb (expected_format data)
  | Missing | Unreadable _ | Malformed => true
  | Escapes _ => false
  end.

(** What makes [clean_old_history] raise before its loop, if anything. *)
Definition history_unreachable (db_data_to_clean : pyval) : option exn :=
  match db_data_to_clean with
  | PDict fields =>
      match dict_get "history" fields with
      | None => Some KeyError
      | Some (PNone | PBool _ | PInt _) => Some TypeError
      | Some (PStr _ | PList _ | PDict _) => None
      end
  | PNone | PBool _ | PInt _ | PStr _ | PList _ => Some TypeError
  end.

End Outcomes.

Import AiService Trace DbOperations Store.

(** * Properties of the retry wrapper *)

Lemma rhythm_app (xs ys : list event) :
  rhythm (xs ++ ys) = (rhythm xs ++ rhythm ys)%list.
Proof.
  induction xs as [|e xs IH]; [reflexivity|].
  destruct e; cbn [rhythm app]; rewrite ?IH; reflexivity.
Qed.

Lemma asks_app (xs ys : list beat) : asks (xs ++ ys) = (asks xs + asks ys)%nat.
Proof.
  induction xs as [|b xs IH]; [reflexivity|].
  destruct b; cbn [asks app]; rewrite IH; reflexivity.
Qed.

Lemma waits_app (xs ys : list beat) : waits (xs ++ ys) = (waits xs ++ waits ys)%list.
Proof.
  induction xs as [|b xs IH]; [reflexivity|].
  destruct b; cbn [waits app]; rewrite IH; reflexivity.
Qed.

Lemma backed_off_succ (first count : nat) :
  backed_off first (S count)
  = Request :: Wait (2 ^ Z.of_nat first) :: backed_off (S first) count.
Proof. reflexivity. Qed.

Lemma asks_backed_off (count first : nat) : asks (backed_off first count) = count.
Proof.
  revert first; induction count as [|count IH]; intros first; [reflexivity|].
  rewrite backed_off_succ; cbn [asks]; now rewrite IH.
Qed.

Lemma waits_backed_off (count first : nat) :
  waits (backed_off first count) = map (fun i => 2 ^ Z.of_nat i) (seq first count).
Proof.
  revert first; induction count as [|count IH]; intros first; [reflexivity|].
  rewrite backed_off_succ; cbn [waits seq map]; now rewrite IH.
Qed.

Lemma total_app (xs ys : list Z) :
  Outcomes.total (xs ++ ys) = Outcomes.total xs + Outcomes.total ys.
Proof.
  unfold Outcomes.total. induction xs as [|x xs IH]; cbn [fold_right app]; lia.
Qed.

Lemma total_powers (count first : nat) :
  Outcomes.total (map (fun i => 2 ^ Z.of_nat i) (seq first count))
  = 2 ^ Z.of_nat first * (2 ^ Z.of_nat count - 1).
Proof.
  revert first; induction count as [|count IH]; intros first.
  - cbn. lia.
  - cbn [seq map]. unfold Outcomes.total in *. cbn [fold_right]. rewrite IH.
    replace (Z.of_nat (S first)) with (Z.of_nat first + 1) by lia.
    replace (Z.of_nat (S count)) with (Z.of_nat count + 1) by lia.
    rewrite !Z.pow_add_r by lia. lia.
Qed.

Lemma range_as_seq (n : Z) (f : Z -> Z) :
  map f (range n) = map (fun i => f (Z.of_nat i)) (seq 0 (Z.to_nat n)).
Proof. unfold range. now rewrite map_map. Qed.

Lemma range_nonpositive (n : Z) : n <= 0 -> range n = [].
Proof.
  intros H. unfold range. replace (Z.to_nat n) with 0%nat by lia. reflexivity.
Qed.

Lemma range_positive (n : Z) :
  1 <= n -> range n = 0 :: map Z.of_nat (seq 1 (Z.to_nat n - 1)).
Proof.
  intros H. unfold range.
  replace (Z.to_nat n) with (S (Z.to_nat n - 1)) at 1 by lia. reflexivity.
Qed.

(** Case analysis on the boolean tests of the code. *)
Ltac split_bool :=
  match goal with
  | |- context [if ?b then _ else _] =>
      match type of b with
      | bool => destruct b eqn:?
      end
  end.

Section Loop.

Variable header : first_header.
Variable generate_content : Z -> string -> list content -> reply.
Variables (prompt : string) (parts : list image_part) (model_name : string).
Variable max_retries : Z.

Let reply_at (attempt : Z) : reply :=
  generate_content attempt model_name (request_contents prompt parts).

Let body := attempt_body header generate_content prompt parts model_name max_retries.
Let loop := for_attempts header generate_content prompt parts model_name max_retries.

(** An iteration issues one request; it sleeps [2 ^ attempt] seconds
    exactly when the loop goes on. *)
Lemma body_rhythm (attempt : Z) :
  rhythm (snd (body attempt))
  = match fst (body attempt) with
    | Continue => [Request; Wait (2 ^ attempt)]
    | Exit _ => [Request]
    end.
Proof.
  unfold body, attempt_body, empty_response, handlers, except_Exception,
    except_ClientResponseError.
  destruct (generate_content attempt model_name (request_contents prompt parts))
    as [text| |str_e [[status_code response_text]|]];
    destruct header; repeat split_bool; reflexivity.
Qed.

(** The events of an iteration: the request first, then messages and at
    most one sleep. *)
Lemma body_events (attempt : Z) (e : event) :
  In e (snd (body attempt)) -> Outcomes.is_request e = true ->
  e = Generate model_name (request_contents prompt parts).
Proof.
  unfold body, attempt_body, empty_response, handlers, except_Exception,
    except_ClientResponseError.
  destruct (generate_content attempt model_name (request_contents prompt parts))
    as [text| |str_e [[status_code response_text]|]];
    destruct header; repeat split_bool; cbn [snd In];
    intros Hin Hreq;
    repeat (destruct Hin as [<-|Hin]; [try reflexivity; try discriminate|]);
    destruct Hin.
Qed.


(** With the released client an iteration never goes on: it returns the
    text of the response, or the [AttributeError] of the header leaves. *)
Lemma body_released (attribute_error : string) (attempt : Z) :
  header = NoSuchAttribute attribute_error ->
  fst (body attempt)
  = Exit (if succeeded (reply_at attempt)
          then Returned match reply_at attempt with
                        | Response text => text
                        | NoResponse | Raises _ _ => EmptyString
                        end
          else Raised attribute_error).
Proof.
  unfold reply_at, body, attempt_body, empty_response, handlers, succeeded.
  intros ->.
  destruct (generate_content attempt model_name (request_contents prompt parts))
    as [text| |str_e response]; try reflexivity.
  destruct (truthy text); reflexivity.
Qed.

Lemma loop_cons (attempt : Z) (later : list Z) :
  loop (attempt :: later)
  = match fst (body attempt) with
    | Exit r => (r, snd (body attempt))
    | Continue => (fst (loop later), (snd (body attempt) ++ snd (loop later))%list)
    end.
Proof.
  unfold loop, body; cbn [for_attempts].
  destruct (attempt_body _ _ _ _ _ _ attempt) as [fl evs]; cbn [fst snd].
  destruct fl; [|reflexivity].
  destruct (for_attempts _ _ _ _ _ _ later); reflexivity.
Qed.


(** With the released client the first iteration is the only one. *)
Lemma loop_released (attribute_error : string) (attempt : Z) (later : list Z) :
  header = NoSuchAttribute attribute_error ->
  let run := loop (attempt :: later) in
  fst run
  = (if succeeded (reply_at attempt)
     then Returned match reply_at attempt with
                   | Response text => text
                   | NoResponse | Raises _ _ => EmptyString
                   end
     else Raised attribute_error)
  /\ rhythm (snd run) = [Request].
Proof.
  intros Hreleased run. subst run. rewrite loop_cons.
  pose proof (body_rhythm attempt) as Hr.
  rewrite (body_released attribute_error attempt Hreleased) in *.
  cbn [fst snd]. split; [reflexivity|exact Hr].
Qed.

(** Whatever the client and the replies, a run is some attempts each
    followed by its backoff, and then either one last request or the end of
    the budget. *)
Lemma loop_shape (count first : nat) :
  let run := loop (map Z.of_nat (seq first count)) in
  (exists k, (k < count)%nat
     /\ rhythm (snd run) = (backed_off first k ++ [Request])%list)
  \/ (rhythm (snd run) = backed_off first count /\ fst run = Returned sentinel).
Proof.
  revert first; induction count as [|count IH]; intros first run; subst run;
    cbn [seq map]; [right; split; reflexivity|].
  rewrite loop_cons.
  pose proof (body_rhythm (Z.of_nat first)) as Hr.
  destruct (fst (body (Z.of_nat first))) as [|r]; cbn [fst snd].
  - rewrite rhythm_app, Hr.
    destruct (IH (S first)) as [(k & Hk & Hry)|[Hry Hres]].
    + left. exists (S k). split; [lia|]. rewrite Hry. reflexivity.
    + right. split; [rewrite Hry; reflexivity|exact Hres].
  - left. exists 0%nat. split; [lia|exact Hr].
Qed.

(** The requests of a run all carry the model name and the contents built
    from the arguments. *)
Lemma loop_requests (attempts : list Z) (e : event) :
  In e (snd (loop attempts)) -> Outcomes.is_request e = true ->
  e = Generate model_name (request_contents prompt parts).
Proof.
  induction attempts as [|attempt later IH]; [intros []|].
  rewrite loop_cons.
  destruct (fst (body attempt)); cbn [snd]; [|apply body_events].
  intros Hin. apply in_app_or in Hin as [Hin|Hin];
    [exact (body_events attempt e Hin)|exact (IH Hin)].
Qed.

End Loop.

(** The numbers a run of [call_gemini] stays within. *)
Lemma call_gemini_shape
  (header : first_header) (generate_content : Z -> string -> list content -> reply)
  (prompt : string) (parts : list image_part) (model_name : string) (N : Z) :
  let run := call_gemini header generate_content prompt parts model_name N in
  exists k, (k <= Z.to_nat N)%nat
    /\ (requests (snd run) <= Z.to_nat N)%nat
    /\ (k <= requests (snd run))%nat
    /\ sleeps (snd run) = map (fun i => 2 ^ Z.of_nat i) (seq 0 k)
    /\ Outcomes.total (sleeps (snd run)) = 2 ^ Z.of_nat k - 1
    /\ (1 <= N -> (1 <= requests (snd run))%nat).
Proof.
  intros run. subst run. unfold call_gemini, range, requests, sleeps.
  destruct (loop_shape header generate_content prompt parts model_name N (Z.to_nat N) 0)
    as [(k & Hk & Hry)|[Hry _]]; rewrite Hry.
  - exists k. rewrite asks_app, waits_app, asks_backed_off, waits_backed_off, app_nil_r.
    cbn [asks]. rewrite total_powers. cbn [Z.of_nat Z.pow]. repeat split; lia.
  - exists (Z.to_nat N). rewrite asks_backed_off, waits_backed_off, total_powers.
    cbn [Z.of_nat Z.pow]. repeat split; lia.
Qed.

(** The run of [call_gemini] with the released client and a budget of one
    attempt or more. *)
Lemma call_gemini_released
  (attribute_error : string) (generate_content : Z -> string -> list content -> reply)
  (prompt : string) (parts : list image_part) (model_name : string) (N : Z) :
  1 <= N ->
  let first_reply := generate_content 0 model_name (request_contents prompt parts) in
  let run :=
    call_gemini (NoSuchAttribute attribute_error) generate_content prompt parts
      model_name N in
  fst run
  = (if succeeded first_reply
     then Returned match first_reply with
                   | Response text => text
                   | NoResponse | Raises _ _ => EmptyString
                   end
     else Raised attribute_error)
  /\ rhythm (snd run) = [Request].
Proof.
  intros HN first_reply run. subst run first_reply. unfold call_gemini.
  rewrite (range_positive N HN).
  apply (loop_released (NoSuchAttribute attribute_error) generate_content prompt parts
           model_name N attribute_error 0 _ eq_refl).
Qed.

(** ** The claims about [call_gemini] *)




(** C2: a recoverable failure is followed by no backoff and no further
    attempt.  With the released client and the default budget of five, a
    rate-limit error of the first request, like an empty response, ends the
    call after that one request: nothing is slept and the [AttributeError]
    raised by the first [except] header leaves [call_gemini]. *)
Theorem call_gemini_failure_is_not_retried
  (attribute_error prompt : string) (parts : list image_part) (model_name : string) :
  let limited :=
    call_gemini (NoSuchAttribute attribute_error) Script.always_rate_limited prompt parts
      model_name 5 in
  let empty :=
    call_gemini (NoSuchAttribute attribute_error) Script.always_empty prompt parts
      model_name 5 in
  fst limited = Raised attribute_error
  /\ requests (snd limited) = 1%nat /\ sleeps (snd limited) = []
  /\ fst empty = Raised attribute_error
  /\ requests (snd empty) = 1%nat /\ sleeps (snd empty) = [].
Proof.
  intros limited empty. subst limited empty.
  destruct (call_gemini_released attribute_error Script.always_rate_limited prompt parts
              model_name 5 ltac:(lia)) as [Hres1 Hry1].
  destruct (call_gemini_released attribute_error Script.always_empty prompt parts
              model_name 5 ltac:(lia)) as [Hres2 Hry2].
  unfold requests, sleeps. rewrite Hry1, Hry2. repeat split; assumption.
Qed.

(** C3: the expired key does not stop the session.  With the released
    client, the error of an expired API key on the first request leaves
    [call_gemini] as the [AttributeError] of the first [except] header:
    [st.error] and [st.stop()] are not reached, and [analyze_resume] hands
    its caller an error string, after which the script goes on. *)
Theorem call_gemini_expired_key_does_not_stop
  (attribute_error prompt job_desc : string) (parts : list image_part)
  (model_name : string) (template : string -> list string -> string) :
  let run :=
    call_gemini (NoSuchAttribute attribute_error) Script.expired_key prompt parts
      model_name 5 in
  fst run = Raised attribute_error
  /\ fst run <> Stopped
  /\ snd run = [Generate model_name (request_contents prompt parts)]
  /\ fst (analyze_resume (NoSuchAttribute attribute_error) Script.expired_key template
            job_desc parts model_name)
     = Returned ("Error analyzing resume: " ++ attribute_error).
Proof.
  intros run. subst run. repeat split. discriminate.
Qed.

(** C10: with [max_retries <= 0] the loop body never runs: no request, no
    sleep, no message, and the sentinel string is returned. *)
Theorem call_gemini_without_budget
  (header : first_header) (generate_content : Z -> string -> list content -> reply)
  (prompt : string) (parts : list image_part) (model_name : string) (max_retries : Z) :
  max_retries <= 0 ->
  call_gemini header generate_content prompt parts model_name max_retries
  = (Returned "Error: Unable to process request after multiple attempts.", []).
Proof.
  intros H. unfold call_gemini. rewrite (range_nonpositive _ H). reflexivity.
Qed.

Lemma call_gemini_without_budget_witness :
  call_gemini Script.released_client Script.always_empty "prompt" [] default_model 0
  = (Returned "Error: Unable to process request after multiple attempts.", [])
  /\ call_gemini Script.released_client Script.always_empty "prompt" [] default_model (-3)
     = (Returned "Error: Unable to process request after multiple attempts.", []).
Proof.
  split.
  - apply (call_gemini_without_budget Script.released_client Script.always_empty "prompt"
             [] default_model 0). lia.
  - apply (call_gemini_without_budget Script.released_client Script.always_empty "prompt"
             [] default_model (-3)). lia.
Defined.

(** ** The analysis functions *)

Lemma try_call_gemini_spec
  (header : first_header) (generate_content : Z -> string -> list content -> reply)
  (doing prompt : string) (parts : list image_part) (model_name : string) :
  let wrapped :=
    call_gemini header generate_content prompt parts model_name default_max_retries in
  let result := try_call_gemini header generate_content doing prompt parts model_name in
  snd result = snd wrapped
  /\ fst result
     = match fst wrapped with
       | Returned text => Returned text
       | Raised str_e => Returned (doing ++ str_e)
       | Stopped => Stopped
       end.
Proof.
  intros wrapped result. subst wrapped result. unfold try_call_gemini.
  destruct (call_gemini header generate_content prompt parts model_name default_max_retries)
    as [r evs].
  destruct r; split; reflexivity.
Qed.

(** With the released client the wrapper, given a budget, returns or
    raises; it never stops the session. *)
Lemma call_gemini_released_never_stops
  (attribute_error : string) (generate_content : Z -> string -> list content -> reply)
  (prompt : string) (parts : list image_part) (model_name : string) (N : Z) :
  fst (call_gemini (NoSuchAttribute attribute_error) generate_content prompt parts
         model_name N) <> Stopped.
Proof.
  destruct (Z.le_gt_cases 1 N) as [HN|HN].
  - destruct (call_gemini_released attribute_error generate_content prompt parts
                model_name N HN) as [Hres _].
    rewrite Hres. destruct (succeeded _); discriminate.
  - unfold call_gemini. rewrite range_nonpositive by lia. discriminate.
Qed.

(** C4: each of the twelve analysis functions calls the wrapper once, with
    the default budget; a text the wrapper returns is returned as it is, an
    exception the wrapper raises is returned as the string
    ["Error <doing X>: <message>"], and nothing else can happen: the caller
    always receives a string and never an exception. *)
Theorem analysis_returns_errors_as_strings
  (attribute_error : string) (generate_content : Z -> string -> list content -> reply)
  (template : string -> list string -> string)
  (k : Analysis.kind) (a : Analysis.arguments) :
  exists prompt,
    let wrapped :=
      call_gemini (NoSuchAttribute attribute_error) generate_content prompt
        (Analysis.content_parts a) (Analysis.model_name a) default_max_retries in
    let result :=
      Analysis.run (NoSuchAttribute attribute_error) generate_content template k a in
    snd result = snd wrapped
    /\ (exists text, fst result = Returned text)
    /\ match fst wrapped with
       | Returned text => fst result = Returned text
       | Raised str_e =>
           fst result = Returned ("Error " ++ Analysis.doing k ++ ": " ++ str_e)
       | Stopped => False
       end.
Proof.
  assert (Hgen : forall doing prompt,
    let wrapped :=
      call_gemini (NoSuchAttribute attribute_error) generate_content prompt
        (Analysis.content_parts a) (Analysis.model_name a) default_max_retries in
    let result :=
      try_call_gemini (NoSuchAttribute attribute_error) generate_content doing prompt
        (Analysis.content_parts a) (Analysis.model_name a) in
    snd result = snd wrapped
    /\ (exists text, fst result = Returned text)
    /\ match fst wrapped with
       | Returned text => fst result = Returned text
       | Raised str_e => fst result = Returned (doing ++ str_e)
       | Stopped => False
       end).
  { intros doing prompt wrapped result.
    destruct (try_call_gemini_spec (NoSuchAttribute attribute_error) generate_content
                doing prompt (Analysis.content_parts a) (Analysis.model_name a))
      as [Hevs Hres].
    fold wrapped result in Hevs, Hres.
    pose proof (call_gemini_released_never_stops attribute_error generate_content prompt
                  (Analysis.content_parts a) (Analysis.model_name a) default_max_retries)
      as Hstop.
    fold wrapped in Hstop.
    split; [exact Hevs|]. rewrite Hres.
    destruct (fst wrapped); [| |congruence]; split; eauto. }
  destruct k; eexists; apply Hgen.
Qed.

(** ** Further properties of the wrapper *)

(** X1: with the released client, whose [genai.types] has no [core], and a
    budget of one attempt or more, [call_gemini] issues exactly one request
    and never sleeps: a response with text is returned, and an empty
    response or any exception of the request leaves as the [AttributeError]
    of the first [except] header, whatever the failure was. *)
Theorem call_gemini_one_request
  (attribute_error : string) (generate_content : Z -> string -> list content -> reply)
  (prompt : string) (parts : list image_part) (model_name : string) (N : Z) :
  1 <= N ->
  let run :=
    call_gemini (NoSuchAttribute attribute_error) generate_content prompt parts
      model_name N in
  fst run
  = match generate_content 0 model_name (request_contents prompt parts) with
    | Response text => if truthy text then Returned text else Raised attribute_error
    | NoResponse | Raises _ _ => Raised attribute_error
    end
  /\ requests (snd run) = 1%nat
  /\ sleeps (snd run) = [].
Proof.
  intros HN run. subst run.
  destruct (call_gemini_released attribute_error generate_content prompt parts
              model_name N HN) as [Hres Hry].
  unfold requests, sleeps. rewrite Hry, Hres. unfold succeeded.
  split; [|split; reflexivity].
  destruct (generate_content 0 model_name (request_contents prompt parts))
    as [text| |str_e response]; try reflexivity.
Qed.

Lemma call_gemini_one_request_witness :
  let run :=
    call_gemini Script.released_client Script.answers "prompt" [] default_model 5 in
  fst run
  = match Script.answers 0 default_model (request_contents "prompt" []) with
    | Response text =>
        if truthy text then Returned text
        else Raised "module 'google.generativeai.types' has no attribute 'core'"
    | NoResponse | Raises _ _ =>
        Raised "module 'google.generativeai.types' has no attribute 'core'"
    end
  /\ requests (snd run) = 1%nat
  /\ sleeps (snd run) = [].
Proof.
  apply (call_gemini_one_request
           "module 'google.generativeai.types' has no attribute 'core'"
           Script.answers "prompt" [] default_model 5).
  lia.
Defined.

(** X2: whatever the client and the model reply and whatever the budget,
    [call_gemini] issues at most [max_retries] requests; the seconds it
    sleeps are 1, 2, 4, ... in this order, one sleep per request at most, so
    that it sleeps less than [2 ^ max_retries] seconds in all. *)
Theorem call_gemini_stays_within_budget
  (header : first_header) (generate_content : Z -> string -> list content -> reply)
  (prompt : string) (parts : list image_part) (model_name : string) (max_retries : Z) :
  let run := call_gemini header generate_content prompt parts model_name max_retries in
  (requests (snd run) <= Z.to_nat max_retries)%nat
  /\ (List.length (sleeps (snd run)) <= requests (snd run))%nat
  /\ sleeps (snd run)
     = map (fun attempt => 2 ^ attempt) (range (Z.of_nat (List.length (sleeps (snd run)))))
  /\ Outcomes.total (sleeps (snd run)) < 2 ^ Z.max 0 max_retries.
Proof.
  intros run.
  destruct (call_gemini_shape header generate_content prompt parts model_name max_retries)
    as (k & Hk & Hreq & Hkr & Hsl & Htot & _).
  fold run in Hreq, Hkr, Hsl, Htot.
  assert (Hlen : List.length (sleeps (snd run)) = k)
    by (rewrite Hsl, length_map, length_seq; reflexivity).
  rewrite Hlen. split; [exact Hreq|].
  split; [exact Hkr|]. split.
  - rewrite range_as_seq, Nat2Z.id. exact Hsl.
  - rewrite Htot.
    assert (2 ^ Z.of_nat k <= 2 ^ Z.max 0 max_retries) by (apply Z.pow_le_mono_r; lia).
    lia.
Qed.

(** X4: every request of a run is made to the model name given, with the
    same contents: the image parts in their order and the prompt last. *)
Theorem call_gemini_requests_carry_parts_then_prompt
  (header : first_header) (generate_content : Z -> string -> list content -> reply)
  (prompt : string) (parts : list image_part) (model_name : string) (max_retries : Z)
  (asked : string) (contents : list content) :
  In (Generate asked contents)
     (snd (call_gemini header generate_content prompt parts model_name max_retries)) ->
  asked = model_name
  /\ contents = (map Image parts ++ [Prompt prompt])%list
  /\ List.length contents = S (List.length parts)
  /\ last contents (Prompt "") = Prompt prompt.
Proof.
  intros Hin.
  pose proof (loop_requests header generate_content prompt parts model_name max_retries
                _ _ Hin eq_refl) as Heq.
  injection Heq as -> ->. unfold request_contents.
  repeat split.
  - rewrite length_app, length_map. cbn [List.length]. lia.
  - apply last_last.
Qed.

Lemma call_gemini_requests_carry_parts_then_prompt_witness :
  let page := {| mime_type := "image/jpeg"; data := "QUJD" |} in
  let contents := [Image page; Prompt "Rate this resume."] in
  default_model = default_model
  /\ contents = (map Image [page] ++ [Prompt "Rate this resume."])%list
  /\ List.length contents = S (List.length [page])
  /\ last contents (Prompt "") = Prompt "Rate this resume.".
Proof.
  intros page contents.
  apply (call_gemini_requests_carry_parts_then_prompt Script.released_client
           Script.always_empty "Rate this resume." [page] default_model 2 default_model
           contents).
  vm_compute. left. reflexivity.
Defined.

(** X5: an analysis function, whatever the client and the model reply,
    issues at least one and at most five requests and sleeps at most 31
    seconds in all. *)
Theorem analysis_requests_and_sleep_bounded
  (header : first_header) (generate_content : Z -> string -> list content -> reply)
  (template : string -> list string -> string)
  (k : Analysis.kind) (a : Analysis.arguments) :
  let result := Analysis.run header generate_content template k a in
  (1 <= requests (snd result) <= 5)%nat
  /\ Outcomes.total (sleeps (snd result)) <= 31.
Proof.
  assert (Hgen : forall doing prompt,
    let result :=
      try_call_gemini header generate_content doing prompt (Analysis.content_parts a)
        (Analysis.model_name a) in
    (1 <= requests (snd result) <= 5)%nat
    /\ Outcomes.total (sleeps (snd result)) <= 31).
  { intros doing prompt result.
    destruct (try_call_gemini_spec header generate_content doing prompt
                (Analysis.content_parts a) (Analysis.model_name a)) as [Hevs _].
    fold result in Hevs. rewrite Hevs.
    destruct (call_gemini_shape header generate_content prompt (Analysis.content_parts a)
                (Analysis.model_name a) default_max_retries)
      as (n & Hn & Hreq & _ & _ & Htot & Hone).
    split; [split; [|exact Hreq]|].
    - apply Hone. unfold default_max_retries. lia.
    - rewrite Htot.
      assert (2 ^ Z.of_nat n <= 2 ^ 5)
        by (apply Z.pow_le_mono_r; unfold default_max_retries in Hn; lia).
      lia. }
  destruct k; apply Hgen.
Qed.

(** X7: with the released client, when the first request does not give a
    response with text (an empty response or any exception), each analysis
    function returns, after that single request, the string
    ["Error <doing X>: "] followed by the text of the [AttributeError]: the
    cause of the failure is not in the string. *)
Theorem analysis_of_failed_request
  (attribute_error : string) (generate_content : Z -> string -> list content -> reply)
  (template : string -> list string -> string)
  (k : Analysis.kind) (a : Analysis.arguments) :
  (forall asked contents, succeeded (generate_content 0 asked contents) = false) ->
  let result :=
    Analysis.run (NoSuchAttribute attribute_error) generate_content template k a in
  fst result = Returned ("Error " ++ Analysis.doing k ++ ": " ++ attribute_error)
  /\ requests (snd result) = 1%nat
  /\ sleeps (snd result) = [].
Proof.
  intros Hfail.
  assert (Hgen : forall doing prompt,
    let result :=
      try_call_gemini (NoSuchAttribute attribute_error) generate_content doing prompt
        (Analysis.content_parts a) (Analysis.model_name a) in
    fst result = Returned (doing ++ attribute_error)
    /\ requests (snd result) = 1%nat
    /\ sleeps (snd result) = []).
  { intros doing prompt result.
    destruct (try_call_gemini_spec (NoSuchAttribute attribute_error) generate_content
                doing prompt (Analysis.content_parts a) (Analysis.model_name a))
      as [Hevs Hres].
    fold result in Hevs, Hres.
    destruct (call_gemini_released attribute_error generate_content prompt
                (Analysis.content_parts a) (Analysis.model_name a) default_max_retries)
      as [Hwr Hry]; [unfold default_max_retries; lia|].
    rewrite Hfail in Hwr.
    unfold requests, sleeps. rewrite Hevs, Hry, Hres, Hwr. repeat split. }
  destruct k; apply Hgen.
Qed.

Lemma analysis_of_failed_request_witness :
  let a :=
    {| Analysis.job_desc := "Engineer"; Analysis.content_parts := [];
       Analysis.language := "English"; Analysis.company_name := "";
       Analysis.hiring_manager := ""; Analysis.location := "";
       Analysis.experience_level := ""; Analysis.target_role_type := "";
       Analysis.model_name := default_model |} in
  let result :=
    Analysis.run Script.released_client Script.always_rate_limited Script.plain_template
      Analysis.Check_grammar a in
  fst result
  = Returned ("Error " ++ Analysis.doing Analysis.Check_grammar ++ ": "
                ++ "module 'google.generativeai.types' has no attribute 'core'")
  /\ requests (snd result) = 1%nat
  /\ sleeps (snd result) = [].
Proof.
  intros a.
  apply (analysis_of_failed_request
           "module 'google.generativeai.types' has no attribute 'core'"
           Script.always_rate_limited Script.plain_template Analysis.Check_grammar a).
  intros asked contents. reflexivity.
Defined.

(** * Properties of the interaction log *)

(** ** Dictionaries and strings *)

Lemma dict_get_set_same (key : string) (v : pyval) (fields : list (string * pyval)) :
  dict_get key (dict_set key v fields) = Some v.
Proof.
  induction fields as [|[k old] rest IH]; cbn [dict_set dict_get].
  - now rewrite String.eqb_refl.
  - destruct (String.eqb k key) eqn:E; cbn [dict_get]; rewrite E; [reflexivity|exact IH].
Qed.

Lemma dict_get_set_other (key key' : string) (v : pyval) (fields : list (string * pyval)) :
  key <> key' ->
  dict_get key (dict_set key' v fields) = dict_get key fields.
Proof.
  intros Hne. induction fields as [|[k old] rest IH]; cbn [dict_set dict_get].
  - destruct (String.eqb key' key) eqn:E; [|reflexivity].
    apply String.eqb_eq in E. congruence.
  - destruct (String.eqb k key') eqn:E; cbn [dict_get].
    + apply String.eqb_eq in E; subst k.
      destruct (String.eqb key' key) eqn:E'; [|reflexivity].
      apply String.eqb_eq in E'. congruence.
    + now rewrite IH.
Qed.

Lemma length_append (a b : string) :
  String.length (a ++ b) = (String.length a + String.length b)%nat.
Proof.
  induction a as [|c a IH]; [reflexivity|]. cbn [String.append String.length]. now rewrite IH.
Qed.

Lemma length_substring (n : nat) (s : string) :
  (n <= String.length s)%nat -> String.length (substring 0 n s) = n.
Proof.
  revert s; induction n as [|n IH]; intros s Hn.
  - destruct s; reflexivity.
  - destruct s as [|c s]; cbn [String.length] in Hn; [lia|].
    cbn [substring String.length]. rewrite IH; [reflexivity|lia].
Qed.

Lemma truthy_length (s : string) : truthy s = negb (String.length s =? 0)%nat.
Proof. destruct s; reflexivity. Qed.

(** ** [excerpt] *)

Lemma excerpt_long (limit : nat) (s : string) :
  (limit < String.length s)%nat ->
  excerpt limit (Some s) = Some (substring 0 limit s ++ "...")
  /\ String.length (substring 0 limit s ++ "...") = (limit + 3)%nat.
Proof.
  intros Hlong. unfold excerpt.
  replace (truthy s) with true by (destruct s; [cbn in Hlong; lia|reflexivity]).
  replace (limit <? String.length s)%nat with true by (symmetry; apply Nat.ltb_lt; exact Hlong).
  split; [reflexivity|].
  rewrite length_append, length_substring by lia. reflexivity.
Qed.

Lemma excerpt_short (limit : nat) (s : string) :
  (String.length s <= limit)%nat -> excerpt limit (Some s) = Some s.
Proof.
  intros Hshort. unfold excerpt.
  replace (limit <? String.length s)%nat with false by (symmetry; apply Nat.ltb_ge; exact Hshort).
  now rewrite andb_false_r.
Qed.

(** ** [load_db_data] *)

Lemma load_db_data_keeps_file (w : world) :
  db_file (snd (load_db_data w)) = db_file w
  /\ write_error (snd (load_db_data w)) = write_error w
  /\ clock (snd (load_db_data w)) = clock w.
Proof.
  unfold load_db_data. destruct (db_file w) as [|str_e| |e|data] eqn:E;
    try destruct (expected_format data); cbn; rewrite ?E; auto.
Qed.

(** C5, as the code has it: [load_db_data] raises only when reading the
    store file raises an exception that is neither [JSONDecodeError] nor
    [IOError], and then that exception; otherwise it returns the empty
    structure when the file is missing, unreadable, malformed, or holds JSON
    that is not a dictionary with both keys (as [{"foo": 1}]), and a
    dictionary with both keys unchanged.  What it returns is a dictionary
    with the keys ["users"] and ["history"]; that the values under them are
    lists is not checked.  The store file is left as it is. *)
Theorem load_db_data_returns_dictionary_with_both_keys (w : world) :
  fst (load_db_data w)
  = match db_file w with
    | Holds data => Ok (if expected_format data then data else empty_db)
    | Missing | Unreadable _ | Malformed => Ok empty_db
    | Escapes e => Raise e
    end
  /\ match fst (load_db_data w) with
     | Ok data =>
         exists fields,
           data = PDict fields
           /\ has_key "users" fields = true /\ has_key "history" fields = true
     | Raise e => db_file w = Escapes e
     end
  /\ db_file (snd (load_db_data w)) = db_file w
  /\ expected_format (PDict [("foo", PInt 1)]) = false
  /\ empty_db = PDict [("users", PList []); ("history", PList [])].
Proof.
  split; [|split; [|split; [apply load_db_data_keeps_file|split; reflexivity]]].
  - unfold load_db_data. destruct (db_file w) as [|str_e| |e|data]; try reflexivity.
    destruct (expected_format data); reflexivity.
  - unfold load_db_data.
    destruct (db_file w) as [|str_e| |e|data]; cbn [fst];
      try solve [exists [("users", PList []); ("history", PList [])]; repeat split];
      [reflexivity|].
    destruct (expected_format data) eqn:E; cbn [fst].
    + destruct data as [| | | | |fields]; try discriminate.
      exists fields. cbn [expected_format] in E. apply andb_true_iff in E.
      tauto.
    + exists [("users", PList []); ("history", PList [])]; repeat split.
Qed.

(** C5, as the claim states it, fails twice.  A store file whose bytes are
    no valid text makes [load_db_data] raise [UnicodeDecodeError], and
    [record_interaction] with it.  A store file holding
    [{"users": 1, "history": 2}] is returned as it is, which is not of the
    shape [{"users": [...], "history": [...]}]; [record_interaction] then
    raises [TypeError] on it. *)
Lemma load_db_data_returns_non_list_values :
  let undecodable :=
    {| db_file := Escapes UnicodeDecodeError; write_error := None;
       clock := Calendar.noon_2024_04_11; shown := [] |} in
  let data := PDict [("users", PInt 1); ("history", PInt 2)] in
  fst (load_db_data undecodable) = Raise UnicodeDecodeError
  /\ fst (record_interaction (datetime := Calendar.iso_clock)
            (Some "Ada") (Some "ada@example.org") (Some "Resume Analysis")
            (Some "Engineer") (Some "Strong match") undecodable)
     = Raise UnicodeDecodeError
  /\ fst (load_db_data (holding data)) = Ok data
  /\ list_shaped data = false
  /\ fst (record_interaction (datetime := Calendar.iso_clock)
            (Some "Ada") (Some "ada@example.org") (Some "Resume Analysis")
            (Some "Engineer") (Some "Strong match") (holding data))
     = Raise TypeError.
Proof.
  vm_compute. repeat split.
Qed.

(** ** [record_interaction] *)

Lemma eq_optstr_false (v : pyval) (x : option string) :
  eq_optstr v x = false -> v <> of_optstr x.
Proof.
  intros H ->. destruct x as [s|]; cbn in H; [|discriminate].
  now rewrite String.eqb_refl in H.
Qed.

Lemma find_user_absent (users : list pyval) (user_email : option string) :
  find_user users user_email = Ok false ->
  ~ In (of_optstr user_email) (map email_of users).
Proof.
  induction users as [|user users IH]; cbn [find_user map In]; [tauto|].
  destruct user as [| | | | |fields]; try discriminate.
  cbn [email_of].
  destruct (eq_optstr _ user_email) eqn:E; [discriminate|].
  intros H [Hhere|Hlater]; [|exact (IH H Hlater)].
  apply eq_optstr_false in E. congruence.
Qed.

(** An email that some dictionary of the list carries is found, provided the
    list holds dictionaries only. *)
Lemma find_user_present (users : list pyval) (user_email : option string) :
  forallb is_dict users = true ->
  In (of_optstr user_email) (map email_of users) ->
  find_user users user_email = Ok true.
Proof.
  induction users as [|user users IH]; cbn [forallb find_user map In]; [tauto|].
  intros Hd Hin. apply andb_true_iff in Hd as [Hu Hd].
  destruct user as [| | | | |fields]; try discriminate.
  cbn [email_of] in Hin.
  destruct (eq_optstr _ user_email) eqn:E; [reflexivity|].
  destruct Hin as [Hhere|Hlater]; [|exact (IH Hd Hlater)].
  apply eq_optstr_false in E. congruence.
Qed.

Lemma eq_optstr_true (v : pyval) (x : option string) :
  eq_optstr v x = true -> v = of_optstr x.
Proof.
  destruct v as [| | |s| |], x as [s'|]; cbn; try discriminate; [reflexivity|].
  intros H. apply String.eqb_eq in H. now subst s'.
Qed.

(** An email that no dictionary of the list carries is not found, provided
    the list holds dictionaries only. *)
Lemma find_user_not_found (users : list pyval) (user_email : option string) :
  forallb is_dict users = true ->
  ~ In (of_optstr user_email) (map email_of users) ->
  find_user users user_email = Ok false.
Proof.
  induction users as [|user users IH]; cbn [forallb find_user map In]; [reflexivity|].
  intros Hd Hout. apply andb_true_iff in Hd as [Hu Hd].
  destruct user as [| | | | |fields]; try discriminate.
  cbn [email_of] in Hout.
  destruct (eq_optstr _ user_email) eqn:E.
  - apply eq_optstr_true in E. tauto.
  - apply IH; [exact Hd|tauto].
Qed.

(** On a list of dictionaries the loop ends without raising. *)
Lemma find_user_total (users : list pyval) (user_email : option string) :
  forallb is_dict users = true ->
  exists seen, find_user users user_email = Ok seen.
Proof.
  induction users as [|user users IH]; cbn [forallb find_user]; [eauto|].
  intros Hd. apply andb_true_iff in Hd as [Hu Hd].
  destruct user as [| | | | |fields]; try discriminate.
  destruct (eq_optstr _ user_email); eauto.
Qed.

Section Record.

Context {datetime : Datetime}.

Lemma updated_db_spec
  (db_data : list (string * pyval)) (users history : list pyval) (now : Z)
  (user_name user_email analysis_type job_description ai_response : option string)
  (seen : bool) :
  dict_get "users" db_data = Some (PList users) ->
  dict_get "history" db_data = Some (PList history) ->
  find_user users user_email = Ok seen ->
  exists db_data',
    updated_db db_data now user_name user_email analysis_type job_description ai_response
    = Ok db_data'
    /\ dict_get "users" db_data'
       = Some (PList (if truthy_optstr user_email && negb seen
                      then users ++ [user_record user_name user_email]
                      else users)%list)
    /\ dict_get "history" db_data'
       = Some (PList (history ++
                 [history_entry now user_name user_email analysis_type
                    job_description ai_response])%list).
Proof.
  intros Husers Hhistory Hfind. unfold updated_db.
  cbn [subscript]. rewrite Husers. cbn [bind iterate]. rewrite Hfind. cbn [bind].
  destruct (truthy_optstr user_email && negb seen); cbn [append bind subscript].
  - rewrite dict_get_set_other, Hhistory by discriminate. cbn [append bind].
    eexists; split; [reflexivity|].
    rewrite dict_get_set_other, !dict_get_set_same by discriminate. split; reflexivity.
  - rewrite Hhistory. cbn [append bind].
    eexists; split; [reflexivity|].
    rewrite dict_get_set_other, dict_get_set_same by discriminate. split; [exact Husers|reflexivity].
Qed.

(** What [record_interaction] comes to on a store that holds the two
    lists. *)
Lemma record_interaction_steps
  (w : world) (db_data : list (string * pyval)) (users history : list pyval)
  (user_name user_email analysis_type job_description ai_response : option string)
  (seen : bool) :
  fst (load_db_data w) = Ok (PDict db_data) ->
  dict_get "users" db_data = Some (PList users) ->
  dict_get "history" db_data = Some (PList history) ->
  find_user users user_email = Ok seen ->
  exists db_data',
    updated_db db_data (clock w) user_name user_email analysis_type job_description
      ai_response = Ok db_data'
    /\ record_interaction user_name user_email analysis_type job_description ai_response w
       = (Ok tt,
          show (Sidebar_info ("Interaction recorded: "
                  ++ match analysis_type with Some s => s | None => "None" end))
            (save_db_data (PDict db_data') (snd (load_db_data w))))
    /\ dict_get "users" db_data'
       = Some (PList (if truthy_optstr user_email && negb seen
                      then users ++ [user_record user_name user_email]
                      else users)%list)
    /\ dict_get "history" db_data'
       = Some (PList (history ++
                 [history_entry (clock w) user_name user_email analysis_type
                    job_description ai_response])%list).
Proof.
  intros Hload Husers Hhistory Hfind.
  destruct (updated_db_spec db_data users history (clock w) user_name user_email
              analysis_type job_description ai_response seen Husers Hhistory Hfind)
    as (db_data' & Hupd & Husers' & Hhistory').
  exists db_data'. split; [exact Hupd|]. split; [|split; assumption].
  unfold record_interaction.
  destruct (load_db_data_keeps_file w) as (_ & _ & Hc).
  destruct (load_db_data w) as [loaded w1]. cbn [fst snd] in *. subst loaded.
  rewrite Hc, Hupd. reflexivity.
Qed.

(** The same, with the store file written. *)
Lemma record_interaction_written
  (w : world) (db_data : list (string * pyval)) (users history : list pyval)
  (user_name user_email analysis_type job_description ai_response : option string)
  (seen : bool) :
  fst (load_db_data w) = Ok (PDict db_data) ->
  write_error w = None ->
  dict_get "users" db_data = Some (PList users) ->
  dict_get "history" db_data = Some (PList history) ->
  find_user users user_email = Ok seen ->
  let after :=
    record_interaction user_name user_email analysis_type job_description ai_response w in
  exists db_data',
    fst after = Ok tt
    /\ db_file (snd after) = Holds (PDict db_data')
    /\ dict_get "users" db_data'
       = Some (PList (if truthy_optstr user_email && negb seen
                      then users ++ [user_record user_name user_email]
                      else users)%list)
    /\ dict_get "history" db_data'
       = Some (PList (history ++
                 [history_entry (clock w) user_name user_email analysis_type
                    job_description ai_response])%list).
Proof.
  intros Hload Hwrite Husers Hhistory Hfind after. subst after.
  destruct (record_interaction_steps w db_data users history user_name user_email
              analysis_type job_description ai_response seen Hload Husers Hhistory Hfind)
    as (db_data' & _ & Hrun & Husers' & Hhistory').
  exists db_data'. rewrite Hrun. cbn [fst snd].
  destruct (load_db_data_keeps_file w) as (_ & Hw & _).
  unfold save_db_data. rewrite Hw, Hwrite.
  split; [reflexivity|]. split; [reflexivity|]. split; assumption.
Qed.

(** C6: when the store, as [load_db_data] returns it, holds a users list of
    records and a history list, and the file can be written,
    [record_interaction] with an email that some user record carries leaves
    the users list as it is, and with an email, not empty, that no user
    record carries it appends exactly one user record, with that email;
    either way it appends exactly one entry to the history, and users whose
    emails were pairwise different stay so. *)
Theorem record_interaction_users_and_history
  (w : world) (db_data : list (string * pyval)) (users history : list pyval)
  (user_name user_email analysis_type job_description ai_response : option string) :
  fst (load_db_data w) = Ok (PDict db_data) ->
  write_error w = None ->
  dict_get "users" db_data = Some (PList users) ->
  dict_get "history" db_data = Some (PList history) ->
  forallb is_dict users = true ->
  let after :=
    record_interaction user_name user_email analysis_type job_description ai_response w in
  exists db_data' users' history',
    fst after = Ok tt
    /\ db_file (snd after) = Holds (PDict db_data')
    /\ dict_get "users" db_data' = Some (PList users')
    /\ dict_get "history" db_data' = Some (PList history')
    /\ (In (of_optstr user_email) (map email_of users) ->
        users' = users /\ List.length users' = List.length users)
    /\ (~ In (of_optstr user_email) (map email_of users) ->
        truthy_optstr user_email = true ->
        users' = (users ++ [user_record user_name user_email])%list
        /\ List.length users' = S (List.length users)
        /\ email_of (user_record user_name user_email) = of_optstr user_email)
    /\ history'
       = (history ++ [history_entry (clock w) user_name user_email analysis_type
                        job_description ai_response])%list
    /\ List.length history' = S (List.length history)
    /\ (NoDup (map email_of users) -> NoDup (map email_of users')).
Proof.
  intros Hload Hwrite Husers Hhistory Hdicts after. subst after.
  destruct (find_user_total users user_email Hdicts) as [seen Hfind].
  destruct (record_interaction_written w db_data users history user_name user_email
              analysis_type job_description ai_response seen Hload Hwrite Husers Hhistory
              Hfind) as (db_data' & Hres & Hfile & Husers' & Hhistory').
  exists db_data'. eexists. eexists.
  split; [exact Hres|]. split; [exact Hfile|].
  split; [exact Husers'|]. split; [exact Hhistory'|].
  split; [|split; [|split; [reflexivity|split]]].
  - intros Hin. rewrite (find_user_present users user_email Hdicts Hin) in Hfind.
    injection Hfind as <-. rewrite andb_false_r. split; reflexivity.
  - intros Hout Hemail.
    rewrite (find_user_not_found users user_email Hdicts Hout) in Hfind.
    injection Hfind as <-. rewrite Hemail. cbn [andb negb].
    split; [reflexivity|]. split; [rewrite List.length_app; cbn [List.length]; lia|].
    reflexivity.
  - rewrite List.length_app; cbn [List.length]; lia.
  - intros Hnodup.
    destruct (truthy_optstr user_email && negb seen) eqn:Hadd; [|exact Hnodup].
    apply andb_true_iff in Hadd as [_ Hseen]. apply negb_true_iff in Hseen. subst seen.
    rewrite map_app. cbn [map email_of user_record dict_get String.eqb Ascii.eqb Bool.eqb].
    apply NoDup_app; [exact Hnodup|repeat constructor; intros []|].
    intros x Hx [<-|[]]. exact (find_user_absent _ _ Hfind Hx).
Qed.

(** X28: with an empty or missing email, [record_interaction] adds no user
    record, whether or not the users hold such an email already. *)
Lemma record_interaction_without_email
  (w : world) (db_data : list (string * pyval)) (users history : list pyval)
  (user_name user_email analysis_type job_description ai_response : option string)
  (seen : bool) :
  fst (load_db_data w) = Ok (PDict db_data) ->
  write_error w = None ->
  dict_get "users" db_data = Some (PList users) ->
  dict_get "history" db_data = Some (PList history) ->
  truthy_optstr user_email = false ->
  find_user users user_email = Ok seen ->
  exists db_data',
    db_file (snd (record_interaction user_name user_email analysis_type
                    job_description ai_response w))
    = Holds (PDict db_data')
    /\ dict_get "users" db_data' = Some (PList users).
Proof.
  intros Hload Hwrite Husers Hhistory Hemail Hfind.
  unfold record_interaction.
  destruct (load_db_data_keeps_file w) as (_ & Hw & Hc).
  destruct (load_db_data w) as [loaded w1]. cbn [fst snd] in Hload, Hw, Hc.
  subst loaded. rewrite Hc.
  destruct (updated_db_spec db_data users history (clock w) user_name user_email
              analysis_type job_description ai_response seen Husers Hhistory Hfind)
    as (db_data' & Hupd & Husers' & _).
  rewrite Hupd. unfold save_db_data. rewrite Hw, Hwrite. cbn [fst snd show write db_file].
  rewrite Hemail in Husers'. exists db_data'. split; [reflexivity|exact Husers'].
Qed.

End Record.

Lemma record_interaction_users_and_history_witness :
  let ada := PDict [("name", PStr "Ada"); ("email", PStr "ada@example.org")] in
  let bob := PDict [("name", PStr "Bob"); ("email", PStr "bob@example.org")] in
  let db_data := [("users", PList [ada]); ("history", PList [])] in
  let w := holding (PDict db_data) in
  let after :=
    record_interaction (datetime := Calendar.iso_clock)
      (Some "Bob") (Some "bob@example.org") (Some "Resume Analysis")
      (Some "Engineer") (Some "Strong match") w in
  ~ In (PStr "bob@example.org") (map email_of [ada])
  /\ db_file (snd after)
     = Holds (PDict [("users", PList [ada; bob]);
                     ("history",
                      PList [history_entry (datetime := Calendar.iso_clock) (clock w)
                               (Some "Bob") (Some "bob@example.org")
                               (Some "Resume Analysis") (Some "Engineer")
                               (Some "Strong match")])])
  /\ exists db_data' users' history',
       fst after = Ok tt
       /\ db_file (snd after) = Holds (PDict db_data')
       /\ dict_get "users" db_data' = Some (PList users')
       /\ dict_get "history" db_data' = Some (PList history')
       /\ (In (of_optstr (Some "bob@example.org")) (map email_of [ada]) ->
           users' = [ada] /\ List.length users' = List.length [ada])
       /\ (~ In (of_optstr (Some "bob@example.org")) (map email_of [ada]) ->
           truthy_optstr (Some "bob@example.org") = true ->
           users' = ([ada] ++ [user_record (Some "Bob") (Some "bob@example.org")])%list
           /\ List.length users' = S (List.length [ada])
           /\ email_of (user_record (Some "Bob") (Some "bob@example.org"))
              = of_optstr (Some "bob@example.org"))
       /\ history'
          = ([] ++ [history_entry (datetime := Calendar.iso_clock) (clock w)
                      (Some "Bob") (Some "bob@example.org") (Some "Resume Analysis")
                      (Some "Engineer") (Some "Strong match")])%list
       /\ List.length history' = 1%nat
       /\ (NoDup (map email_of [ada]) -> NoDup (map email_of users')).
Proof.
  intros ada bob db_data w after.
  split; [intros [H|[]]; discriminate|].
  split; [reflexivity|].
  apply (record_interaction_users_and_history (datetime := Calendar.iso_clock)
           w db_data [ada] [] (Some "Bob") (Some "bob@example.org")
           (Some "Resume Analysis") (Some "Engineer") (Some "Strong match"));
    reflexivity.
Defined.

(** An email that a user record carries already adds no record. *)
Example record_interaction_known_email :
  let ada := PDict [("name", PStr "Ada"); ("email", PStr "ada@example.org")] in
  let w := holding (PDict [("users", PList [ada]); ("history", PList [])]) in
  let after :=
    record_interaction (datetime := Calendar.iso_clock)
      (Some "Ada L.") (Some "ada@example.org") (Some "Resume Analysis")
      (Some "Engineer") (Some "Strong match") w in
  exists history,
    db_file (snd after)
    = Holds (PDict [("users", PList [ada]); ("history", PList [history])]).
Proof.
  eexists. vm_compute. reflexivity.
Qed.

Lemma excerpt_cases (limit : nat) (s : string) :
  exists stored,
    excerpt limit (Some s) = Some stored
    /\ ((limit < String.length s)%nat ->
        stored = substring 0 limit s ++ "..." /\ String.length stored = (limit + 3)%nat)
    /\ ((String.length s <= limit)%nat -> stored = s)
    /\ (String.length stored <= limit + 3)%nat.
Proof.
  destruct (Nat.ltb_spec limit (String.length s)) as [Hlong|Hshort].
  - destruct (excerpt_long limit s Hlong) as [He Hl].
    eexists. split; [exact He|]. split; [auto|]. split; [lia|lia].
  - eexists. split; [exact (excerpt_short limit s Hshort)|].
    split; [lia|]. split; [reflexivity|lia].
Qed.

(** C7: when the store, as [load_db_data] returns it, holds a users list of
    records and a history list, and the file can be written, the store file
    [record_interaction] writes has the given history followed by one new
    entry, in which a job description of more than 200 characters is stored
    as its first 200 characters followed by ["..."], 203 characters in all,
    and an AI response of more than 500 characters as its first 500
    characters followed by ["..."], 503 in all; a text within the limit is
    stored as it is. *)
Theorem record_interaction_stores_excerpts
  {datetime : Datetime}
  (w : world) (db_data : list (string * pyval)) (users history : list pyval)
  (user_name user_email analysis_type : option string)
  (job_description ai_response : string) :
  fst (load_db_data w) = Ok (PDict db_data) ->
  write_error w = None ->
  dict_get "users" db_data = Some (PList users) ->
  dict_get "history" db_data = Some (PList history) ->
  forallb is_dict users = true ->
  let after :=
    record_interaction user_name user_email analysis_type
      (Some job_description) (Some ai_response) w in
  exists db_data' entry stored_job stored_response,
    fst after = Ok tt
    /\ db_file (snd after) = Holds (PDict db_data')
    /\ dict_get "history" db_data' = Some (PList (history ++ [entry])%list)
    /\ subscript entry "job_description_excerpt" = Ok (PStr stored_job)
    /\ subscript entry "ai_response_excerpt" = Ok (PStr stored_response)
    /\ ((200 < String.length job_description)%nat ->
        stored_job = substring 0 200 job_description ++ "..."
        /\ String.length stored_job = 203%nat)
    /\ ((String.length job_description <= 200)%nat -> stored_job = job_description)
    /\ ((500 < String.length ai_response)%nat ->
        stored_response = substring 0 500 ai_response ++ "..."
        /\ String.length stored_response = 503%nat)
    /\ ((String.length ai_response <= 500)%nat -> stored_response = ai_response)
    /\ (String.length stored_job <= 203)%nat
    /\ (String.length stored_response <= 503)%nat.
Proof.
  intros Hload Hwrite Husers Hhistory Hdicts after. subst after.
  destruct (find_user_total users user_email Hdicts) as [seen Hfind].
  destruct (record_interaction_written w db_data users history user_name user_email
              analysis_type (Some job_description) (Some ai_response) seen Hload Hwrite
              Husers Hhistory Hfind) as (db_data' & Hres & Hfile & _ & Hhistory').
  destruct (excerpt_cases 200%nat job_description) as (a & Ha & Ha1 & Ha2 & Ha3).
  destruct (excerpt_cases 500%nat ai_response) as (b & Hb & Hb1 & Hb2 & Hb3).
  exists db_data', (history_entry (clock w) user_name user_email analysis_type
                      (Some job_description) (Some ai_response)), a, b.
  split; [exact Hres|]. split; [exact Hfile|]. split; [exact Hhistory'|].
  unfold history_entry. rewrite Ha, Hb.
  split; [reflexivity|]. split; [reflexivity|].
  repeat split; auto; try (apply Ha1; assumption); try (apply Hb1; assumption).
Qed.

Lemma record_interaction_stores_excerpts_witness :
  let db_data := [("users", PList []); ("history", PList [entry_1_day_old])] in
  let w := holding (PDict db_data) in
  let after :=
    record_interaction (datetime := Calendar.iso_clock)
      (Some "Ada") (Some "ada@example.org") (Some "Resume Analysis")
      (Some (text_of_length 1000)) (Some "Strong match") w in
  exists db_data' entry stored_job stored_response,
    fst after = Ok tt
    /\ db_file (snd after) = Holds (PDict db_data')
    /\ dict_get "history" db_data' = Some (PList ([entry_1_day_old] ++ [entry])%list)
    /\ subscript entry "job_description_excerpt" = Ok (PStr stored_job)
    /\ subscript entry "ai_response_excerpt" = Ok (PStr stored_response)
    /\ ((200 < String.length (text_of_length 1000))%nat ->
        stored_job = substring 0 200 (text_of_length 1000) ++ "..."
        /\ String.length stored_job = 203%nat)
    /\ ((String.length (text_of_length 1000) <= 200)%nat ->
        stored_job = text_of_length 1000)
    /\ ((500 < String.length "Strong match")%nat ->
        stored_response = substring 0 500 "Strong match" ++ "..."
        /\ String.length stored_response = 503%nat)
    /\ ((String.length "Strong match" <= 500)%nat -> stored_response = "Strong match")
    /\ (String.length stored_job <= 203)%nat
    /\ (String.length stored_response <= 503)%nat.
Proof.
  intros db_data w.
  apply (record_interaction_stores_excerpts (datetime := Calendar.iso_clock)
           w db_data [] [entry_1_day_old] (Some "Ada") (Some "ada@example.org")
           (Some "Resume Analysis") (text_of_length 1000) "Strong match");
    reflexivity.
Defined.

(** The 1000-character job description of the specification, as the store
    file holds it after the call. *)
Example record_interaction_of_1000_characters :
  let w := holding empty_db in
  let after :=
    record_interaction (datetime := Calendar.iso_clock)
      (Some "Ada") (Some "ada@example.org") (Some "Resume Analysis")
      (Some (text_of_length 1000)) (Some "Strong match") w in
  db_file (snd after)
  = Holds (PDict [("users", PList [user_record (Some "Ada") (Some "ada@example.org")]);
                  ("history",
                   PList [PDict [("timestamp", PStr (isoformat (Datetime := Calendar.iso_clock) (clock w)));
                                 ("name", PStr "Ada");
                                 ("email", PStr "ada@example.org");
                                 ("analysis_type", PStr "Resume Analysis");
                                 ("job_description_excerpt",
                                  PStr (text_of_length 200 ++ "..."));
                                 ("ai_response_excerpt", PStr "Strong match")]])]).
Proof.
  vm_compute. reflexivity.
Qed.

(** The 1000-character job description of the specification. *)
Example excerpt_of_1000_characters :
  String.length (text_of_length 1000) = 1000%nat
  /\ excerpt 200 (Some (text_of_length 1000)) = Some (text_of_length 200 ++ "...")
  /\ String.length (text_of_length 200 ++ "...") = 203%nat.
Proof.
  vm_compute. repeat split.
Qed.

(** ** [clean_old_history] *)

Lemma shown_only (warnings : list ui_event) (w : world) :
  db_file (fold_left (fun w e => show e w) warnings w) = db_file w
  /\ write_error (fold_left (fun w e => show e w) warnings w) = write_error w.
Proof.
  revert w; induction warnings as [|e warnings IH]; intros w; cbn [fold_left]; [tauto|].
  destruct (IH (show e w)) as [-> ->]. split; reflexivity.
Qed.

Section Clean.

Context {datetime : Datetime}.

(** When the call reports that nothing was cleaned, the dictionary and the
    store file are as before. *)
Lemma clean_old_history_nothing_expired
  (db_data_to_clean : pyval) (days_threshold : Z) (w : world) :
  let '(result, db_data, w') := clean_old_history db_data_to_clean days_threshold w in
  result = Ok false -> db_data = db_data_to_clean /\ db_file w' = db_file w.
Proof.
  unfold clean_old_history.
  destruct (history <- subscript db_data_to_clean "history";; iterate history)
    as [entries|e]; [|discriminate].
  destruct (sweep (clock w) days_threshold entries) as [[cleaned occurred] warnings].
  destruct occurred.
  - destruct db_data_to_clean; discriminate.
  - intros _. split; [reflexivity|apply shown_only].
Qed.

(** The entries the loop keeps are those its body keeps, in order; cleanup
    is reported exactly when some timestamp is older than the threshold. *)
Lemma sweep_spec (current_time days_threshold : Z) (history : list pyval) :
  let '(cleaned_history, cleanup_occurred, _) :=
    sweep current_time days_threshold history in
  cleaned_history
  = filter (fun entry =>
              match examine current_time days_threshold entry with
              | Kept _ => true
              | Expired | Skipped _ => false
              end) history
  /\ cleanup_occurred
     = existsb (fun entry =>
                  match examine current_time days_threshold entry with
                  | Expired => true
                  | Kept _ | Skipped _ => false
                  end) history.
Proof.
  induction history as [|entry rest IH]; cbn [sweep filter existsb]; [split; reflexivity|].
  destruct (sweep current_time days_threshold rest) as [[cleaned occurred] warnings].
  destruct IH as [-> ->].
  destruct (examine current_time days_threshold entry) as [[warning|]| |warning];
    split; reflexivity.
Qed.

End Clean.

(** The example of the specification: of an entry 101 days old and one a day
    old, only the second is retained, the call returns [True] and the store
    is rewritten. *)
Example clean_old_history_101_days_and_1_day :
  let data := with_history [entry_101_days_old; entry_1_day_old] in
  let '(result, db_data, w') :=
    clean_old_history (datetime := Calendar.iso_clock) data 100 (holding data) in
  result = Ok true
  /\ db_data = with_history [entry_1_day_old]
  /\ db_file w' = Holds (with_history [entry_1_day_old]).
Proof.
  vm_compute. repeat split.
Qed.

(** C8: an entry that is no record survives the cleanup when it is a string.
    With the history [["abc", <an entry 101 days old>]] and a threshold of
    100 days, the old entry is pruned, the call returns [True], and the
    history saved is [["abc"]]: the malformed entry was kept. *)
Theorem clean_old_history_keeps_string_entry :
  let data := with_history [PStr "abc"; entry_101_days_old] in
  let '(result, db_data, w') :=
    clean_old_history (datetime := Calendar.iso_clock) data 100 (holding data) in
  result = Ok true
  /\ db_data = with_history [PStr "abc"]
  /\ db_file w' = Holds (with_history [PStr "abc"]).
Proof.
  vm_compute. repeat split.
Qed.

(** The same handler drops what it should keep: a record whose timestamp is
    [None] is unparsable, yet it goes the way of a number. *)
Example clean_old_history_drops_record_without_string_timestamp :
  let data :=
    with_history [PInt 5; PDict [("timestamp", PNone); ("name", PStr "Ada")];
                  entry_101_days_old] in
  let '(result, db_data, _) :=
    clean_old_history (datetime := Calendar.iso_clock) data 100 (holding data) in
  result = Ok true /\ db_data = with_history [].
Proof.
  vm_compute. repeat split.
Qed.

(** Records without a timestamp or with one that does not parse are kept. *)
Example clean_old_history_keeps_unparsable :
  let no_timestamp := PDict [("name", PStr "Ada")] in
  let bad_timestamp := PDict [("timestamp", PStr "yesterday")] in
  let data := with_history [no_timestamp; bad_timestamp; entry_101_days_old] in
  let '(result, db_data, _) :=
    clean_old_history (datetime := Calendar.iso_clock) data 100 (holding data) in
  result = Ok true /\ db_data = with_history [no_timestamp; bad_timestamp].
Proof.
  vm_compute. repeat split.
Qed.

(** * Properties of the PDF renderer *)

Lemma exists_file_unlink (path : string) (w : Utils.world) :
  Utils.exists_file path (Utils.unlink path w) = false.
Proof.
  unfold Utils.exists_file, Utils.unlink; cbn [Utils.files].
  induction (Utils.files w) as [|f fs IH]; [reflexivity|].
  cbn [filter]. destruct (String.eqb f path) eqn:E; cbn [negb]; [exact IH|].
  cbn [existsb]. rewrite String.eqb_sym, E. exact IH.
Qed.

Section Rendering.

Context {renderer : Utils.Renderer}.

(** When the conversion succeeds the temporary file is gone after the
    call. *)
Lemma render_success_removes_temporary_file
  (full_html : string) (config : option string) (w : Utils.world) (pdf_data : string) :
  Utils.from_string full_html config = Utils.Pdf pdf_data ->
  let result := Utils.render_to_temporary_file full_html config w in
  fst result = Some pdf_data
  /\ Utils.exists_file (Utils.mkstemp (Utils.files w)) (snd result) = false.
Proof.
  intros H result. subst result. unfold Utils.render_to_temporary_file. rewrite H.
  split; [reflexivity|apply exists_file_unlink].
Qed.

(** When the conversion raises, the handler reports the error and returns
    [None]; [os.unlink] is never reached and the temporary file stays. *)
Lemma render_failure_leaves_temporary_file
  (full_html : string) (config : option string) (w : Utils.world) (str_e : string) :
  Utils.from_string full_html config = Utils.RenderError str_e ->
  let result := Utils.render_to_temporary_file full_html config w in
  fst result = None
  /\ Utils.exists_file (Utils.mkstemp (Utils.files w)) (snd result) = true.
Proof.
  intros H result. subst result. unfold Utils.render_to_temporary_file. rewrite H.
  split; [reflexivity|].
  unfold Utils.exists_file; cbn. now rewrite String.eqb_refl.
Qed.

End Rendering.

(** C9: the failure path does not remove the temporary file.  With no
    [wkhtmltopdf] to run, rendering ["# Title\n- a\n- b"] returns [None],
    shows the error, and leaves behind the file the call created. *)
Theorem generate_pdf_from_markdown_leaves_temporary_file_on_failure :
  let w := {| Utils.files := []; Utils.clock := Calendar.noon_2024_04_11;
              Utils.errors := [] |} in
  let result :=
    Utils.generate_pdf_from_markdown (renderer := Script.missing_wkhtmltopdf) None
      "# Title
- a
- b" "Report" "ResumeFlow AI" "report.pdf" w in
  fst result = None
  /\ Utils.files (snd result) = [Script.temporary_name]
  /\ Utils.exists_file Script.temporary_name (snd result) = true
  /\ List.length (Utils.errors (snd result)) = 1%nat.
Proof.
  vm_compute. repeat split.
Qed.

(** The success path does remove it. *)
Example generate_pdf_from_markdown_removes_temporary_file_on_success :
  let w := {| Utils.files := []; Utils.clock := Calendar.noon_2024_04_11;
              Utils.errors := [] |} in
  let result :=
    Utils.generate_pdf_from_markdown (renderer := Script.working_wkhtmltopdf) None
      "# Title" "Report" "ResumeFlow AI" "report.pdf" w in
  (exists pdf_data, fst result = Some pdf_data)
  /\ Utils.files (snd result) = []
  /\ Utils.errors (snd result) = [].
Proof.
  vm_compute. repeat split. eexists; reflexivity.
Qed.

(** * Further properties of the interaction log *)

Lemma shown_keeps_clock (warnings : list ui_event) (w : world) :
  clock (fold_left (fun w e => show e w) warnings w) = clock w.
Proof.
  revert w; induction warnings as [|e warnings IH]; intros w; cbn [fold_left];
    [reflexivity|now rewrite IH].
Qed.

Lemma save_db_data_keeps (data : pyval) (w : world) :
  clock (save_db_data data w) = clock w
  /\ write_error (save_db_data data w) = write_error w.
Proof.
  unfold save_db_data. destruct (write_error w) as [[str_e|str_e]|] eqn:E;
    cbn; rewrite ?E; split; reflexivity.
Qed.

Lemma find_user_after_append
  (users : list pyval) (user_name user_email : option string) (seen : bool) :
  find_user users user_email = Ok seen ->
  find_user (users ++ [user_record user_name user_email]) user_email = Ok true.
Proof.
  induction users as [|user users IH]; cbn [find_user app].
  - intros _. cbn. destruct user_email as [s|]; cbn; [now rewrite String.eqb_refl|reflexivity].
  - destruct user as [| | | | |fields]; try discriminate.
    destruct (eq_optstr _ user_email); [reflexivity|exact IH].
Qed.

Section RecordMore.

Context {datetime : Datetime}.

(** The keys other than ["users"] and ["history"] go through the update
    unchanged. *)
Lemma updated_db_frame
  (db_data db_data' : list (string * pyval)) (now : Z)
  (user_name user_email analysis_type job_description ai_response : option string)
  (key : string) :
  updated_db db_data now user_name user_email analysis_type job_description ai_response
  = Ok db_data' ->
  key <> "users" -> key <> "history" ->
  dict_get key db_data' = dict_get key db_data.
Proof.
  unfold updated_db. intros H Hu Hh.
  destruct (subscript (PDict db_data) "users") as [users|]; [|discriminate].
  cbn [bind] in H.
  destruct (iterate users) as [each_user|]; [|discriminate]. cbn [bind] in H.
  destruct (find_user each_user user_email) as [user_exists|]; [|discriminate].
  cbn [bind] in H.
  destruct (truthy_optstr user_email && negb user_exists).
  - destruct (append users _) as [users'|]; [|discriminate]. cbn [bind] in H.
    destruct (subscript _ "history") as [history|]; [|discriminate]. cbn [bind] in H.
    destruct (append history _) as [history'|]; [|discriminate]. cbn [bind] in H.
    injection H as <-. now rewrite !dict_get_set_other by assumption.
  - cbn [bind] in H.
    destruct (subscript _ "history") as [history|]; [|discriminate]. cbn [bind] in H.
    destruct (append history _) as [history'|]; [|discriminate]. cbn [bind] in H.
    injection H as <-. now rewrite !dict_get_set_other by assumption.
Qed.

End RecordMore.

Lemma load_unusable (w : world) :
  Outcomes.unusable (db_file w) = true -> fst (load_db_data w) = Ok empty_db.
Proof.
  unfold Outcomes.unusable, load_db_data.
  destruct (db_file w) as [|str_e| |e|data]; try reflexivity; [discriminate|].
  intros H. apply negb_true_iff in H. rewrite H. reflexivity.
Qed.

Section RecordExtras.

Context {datetime : Datetime}.

(** X9: on a store file that is missing, unreadable, malformed or not a
    dictionary with both keys, [record_interaction] with an email that is
    not empty starts over: the file it writes holds that one user and that
    one history entry, and nothing of what the file held before. *)
Theorem record_interaction_on_unusable_store
  (w : world)
  (user_name user_email analysis_type job_description ai_response : option string) :
  Outcomes.unusable (db_file w) = true ->
  write_error w = None ->
  truthy_optstr user_email = true ->
  let after :=
    record_interaction user_name user_email analysis_type job_description ai_response w in
  fst after = Ok tt
  /\ db_file (snd after)
     = Holds (PDict [("users", PList [user_record user_name user_email]);
                     ("history",
                      PList [history_entry (clock w) user_name user_email analysis_type
                               job_description ai_response])]).
Proof.
  intros Hbad Hwrite Hemail after. subst after.
  destruct (record_interaction_steps w
              [("users", PList []); ("history", PList [])] [] []
              user_name user_email analysis_type job_description ai_response false
              (load_unusable w Hbad) eq_refl eq_refl eq_refl)
    as (db_data' & Hupd & Hrun & _).
  rewrite Hrun. cbn [fst snd]. split; [reflexivity|].
  unfold updated_db in Hupd. cbn [subscript dict_get String.eqb Ascii.eqb Bool.eqb bind
    iterate find_user] in Hupd.
  rewrite Hemail in Hupd.
  cbn [andb negb PyVal.append bind app dict_set subscript dict_get String.eqb Ascii.eqb
    Bool.eqb] in Hupd.
  injection Hupd as <-.
  destruct (load_db_data_keeps_file w) as (_ & Hw & _).
  unfold save_db_data. rewrite Hw, Hwrite. reflexivity.
Qed.

(** X10: recording twice with the same email, not empty, adds that email to
    the users once at most, whatever the names given and the time between
    the two calls, and adds both history entries in the order of the
    calls. *)
Theorem record_interaction_twice
  (w : world) (db_data : list (string * pyval)) (users history : list pyval)
  (user_email : option string)
  (name1 type1 job1 response1 name2 type2 job2 response2 : option string)
  (later : Z) (seen : bool) :
  fst (load_db_data w) = Ok (PDict db_data) ->
  write_error w = None ->
  dict_get "users" db_data = Some (PList users) ->
  dict_get "history" db_data = Some (PList history) ->
  truthy_optstr user_email = true ->
  find_user users user_email = Ok seen ->
  let w1 := snd (record_interaction name1 user_email type1 job1 response1 w) in
  let w1' := {| db_file := db_file w1; write_error := write_error w1;
                clock := later; shown := shown w1 |} in
  let w2 := snd (record_interaction name2 user_email type2 job2 response2 w1') in
  exists db_data2,
    db_file w2 = Holds (PDict db_data2)
    /\ dict_get "users" db_data2
       = Some (PList (if seen then users
                      else users ++ [user_record name1 user_email])%list)
    /\ dict_get "history" db_data2
       = Some (PList (history ++
                 [history_entry (clock w) name1 user_email type1 job1 response1;
                  history_entry later name2 user_email type2 job2 response2])%list).
Proof.
  intros Hload Hwrite Husers Hhistory Hemail Hfind w1 w1' w2.
  destruct (record_interaction_steps w db_data users history name1 user_email type1
              job1 response1 seen Hload Husers Hhistory Hfind)
    as (db1 & _ & Hrun1 & Husers1 & Hhistory1).
  rewrite Hemail in Husers1. cbn [andb] in Husers1.
  destruct (load_db_data_keeps_file w) as (_ & Hw & _).
  assert (Hfile1 : db_file w1 = Holds (PDict db1) /\ write_error w1 = None).
  { subst w1. rewrite Hrun1. cbn [snd]. unfold save_db_data. rewrite Hw, Hwrite.
    cbn [show write db_file write_error]. rewrite Hw. split; [reflexivity|exact Hwrite]. }
  destruct Hfile1 as [Hfile1 Hwrite1].
  assert (Hload1 : load_db_data w1' = (Ok (PDict db1), w1')).
  { unfold load_db_data. subst w1'. cbn [db_file]. rewrite Hfile1.
    cbn [expected_format]. unfold has_key. rewrite Husers1, Hhistory1. reflexivity. }
  assert (Hfind1 : find_user (if negb seen
                              then users ++ [user_record name1 user_email]
                              else users)%list user_email = Ok true).
  { destruct seen; cbn [negb]; [exact Hfind|exact (find_user_after_append _ _ _ _ Hfind)]. }
  destruct (record_interaction_steps w1' db1 _ _ name2 user_email type2 job2 response2
              true (f_equal fst Hload1) Husers1 Hhistory1 Hfind1)
    as (db2 & _ & Hrun2 & Husers2 & Hhistory2).
  exists db2. subst w2. rewrite Hrun2, Hload1. cbn [snd].
  unfold save_db_data. replace (write_error w1') with (@None write_failure) by (symmetry; exact Hwrite1).
  cbn [show write db_file].
  split; [reflexivity|]. split.
  - rewrite Husers2, andb_false_r. destruct seen; reflexivity.
  - rewrite Hhistory2, <- app_assoc. reflexivity.
Qed.

(** X11: when writing the store fails with an [IOError],
    [record_interaction] still returns normally and still shows
    "Interaction recorded", after the error of the failed write.  When
    [open] itself failed the store file is as it was; when the write broke
    off after [open] had truncated the file, what the file held is lost: it
    no longer parses, and the next [load_db_data] starts from the empty
    store. *)
Theorem record_interaction_write_failure
  (w : world) (db_data : list (string * pyval)) (users history : list pyval)
  (user_name user_email analysis_type job_description ai_response : option string)
  (seen : bool) (failure : write_failure) :
  fst (load_db_data w) = Ok (PDict db_data) ->
  write_error w = Some failure ->
  dict_get "users" db_data = Some (PList users) ->
  dict_get "history" db_data = Some (PList history) ->
  find_user users user_email = Ok seen ->
  let after :=
    record_interaction user_name user_email analysis_type job_description ai_response w in
  fst after = Ok tt
  /\ match failure with
     | CannotOpen _ => db_file (snd after) = db_file w
     | BreaksOff _ =>
         db_file (snd after) = Malformed
         /\ fst (load_db_data (snd after)) = Ok empty_db
     end
  /\ shown (snd after)
     = (shown (snd (load_db_data w)) ++
        [St_error ("Error writing to 'app_data.json': "
                     ++ match failure with CannotOpen str_e | BreaksOff str_e => str_e end
                     ++ ". Ensure the application has write permissions to this directory.");
         Sidebar_info ("Interaction recorded: "
                         ++ match analysis_type with Some s => s | None => "None" end)])%list.
Proof.
  intros Hload Hwrite Husers Hhistory Hfind after. subst after.
  destruct (record_interaction_steps w db_data users history user_name user_email
              analysis_type job_description ai_response seen Hload Husers Hhistory Hfind)
    as (db_data' & _ & Hrun & _).
  rewrite Hrun. cbn [fst snd].
  destruct (load_db_data_keeps_file w) as (Hf & Hw & _).
  unfold save_db_data. rewrite Hw, Hwrite.
  destruct failure as [str_e|str_e]; cbn [show truncated db_file shown write_error_message].
  - split; [reflexivity|]. split; [exact Hf|].
    rewrite <- app_assoc. reflexivity.
  - split; [reflexivity|]. split; [split; reflexivity|].
    rewrite <- app_assoc. reflexivity.
Qed.

(** X12: [record_interaction] writes back unchanged every key of the store
    other than ["users"] and ["history"]. *)
Theorem record_interaction_keeps_other_keys
  (w : world) (db_data : list (string * pyval)) (users history : list pyval)
  (user_name user_email analysis_type job_description ai_response : option string)
  (seen : bool) :
  fst (load_db_data w) = Ok (PDict db_data) ->
  write_error w = None ->
  dict_get "users" db_data = Some (PList users) ->
  dict_get "history" db_data = Some (PList history) ->
  find_user users user_email = Ok seen ->
  exists db_data',
    db_file (snd (record_interaction user_name user_email analysis_type
                    job_description ai_response w))
    = Holds (PDict db_data')
    /\ forall key, key <> "users" -> key <> "history" ->
         dict_get key db_data' = dict_get key db_data.
Proof.
  intros Hload Hwrite Husers Hhistory Hfind.
  destruct (record_interaction_steps w db_data users history user_name user_email
              analysis_type job_description ai_response seen Hload Husers Hhistory Hfind)
    as (db_data' & Hupd & Hrun & _).
  exists db_data'. rewrite Hrun. cbn [snd].
  destruct (load_db_data_keeps_file w) as (_ & Hw & _).
  unfold save_db_data. rewrite Hw, Hwrite. split; [reflexivity|].
  intros key Hu Hh. exact (updated_db_frame _ _ _ _ _ _ _ _ key Hupd Hu Hh).
Qed.

(** X13: when [record_interaction] raises (a users value that cannot be
    iterated, a user that is no dictionary, a users or history value that is
    no list), it has written nothing: the store file is as before. *)
Theorem record_interaction_raise_writes_nothing
  (w : world)
  (user_name user_email analysis_type job_description ai_response : option string)
  (e : exn) :
  fst (record_interaction user_name user_email analysis_type job_description
         ai_response w) = Raise e ->
  db_file (snd (record_interaction user_name user_email analysis_type job_description
                  ai_response w)) = db_file w.
Proof.
  unfold record_interaction.
  destruct (load_db_data_keeps_file w) as (Hf & _ & _).
  destruct (load_db_data w) as [loaded w1]. cbn [snd] in Hf.
  destruct loaded as [[| | | | |db_data]|raised]; cbn [fst snd]; try (intros _; exact Hf).
  destruct (updated_db _ _ _ _ _ _ _); cbn [fst snd]; [discriminate|intros _; exact Hf].
Qed.

End RecordExtras.

Lemma record_interaction_on_unusable_store_witness :
  let w := {| db_file := Malformed; write_error := None;
              clock := Calendar.noon_2024_04_11; shown := [] |} in
  let after :=
    record_interaction (datetime := Calendar.iso_clock) (Some "Ada")
      (Some "ada@example.org") (Some "Resume Analysis") (Some "Engineer")
      (Some "Strong match") w in
  fst after = Ok tt
  /\ db_file (snd after)
     = Holds (PDict [("users", PList [user_record (Some "Ada") (Some "ada@example.org")]);
                     ("history",
                      PList [history_entry (datetime := Calendar.iso_clock) (clock w)
                               (Some "Ada") (Some "ada@example.org")
                               (Some "Resume Analysis") (Some "Engineer")
                               (Some "Strong match")])]).
Proof.
  intros w.
  apply (record_interaction_on_unusable_store (datetime := Calendar.iso_clock) w
           (Some "Ada") (Some "ada@example.org") (Some "Resume Analysis")
           (Some "Engineer") (Some "Strong match")); reflexivity.
Defined.

Lemma record_interaction_twice_witness :
  let db_data := [("users", PList []); ("history", PList [])] in
  let w := holding (PDict db_data) in
  let w1 :=
    snd (record_interaction (datetime := Calendar.iso_clock) (Some "Ada")
           (Some "ada@example.org") (Some "Resume Analysis") (Some "Engineer")
           (Some "Strong match") w) in
  let w1' := {| db_file := db_file w1; write_error := write_error w1;
                clock := clock w + 60000000; shown := shown w1 |} in
  let w2 :=
    snd (record_interaction (datetime := Calendar.iso_clock) (Some "Ada L.")
           (Some "ada@example.org") (Some "Match Score") (Some "Engineer")
           (Some "75%") w1') in
  exists db_data2,
    db_file w2 = Holds (PDict db_data2)
    /\ dict_get "users" db_data2
       = Some (PList (if false then []
                      else [] ++ [user_record (Some "Ada") (Some "ada@example.org")])%list)
    /\ dict_get "history" db_data2
       = Some (PList ([] ++
                 [history_entry (datetime := Calendar.iso_clock) (clock w) (Some "Ada")
                    (Some "ada@example.org") (Some "Resume Analysis") (Some "Engineer")
                    (Some "Strong match");
                  history_entry (datetime := Calendar.iso_clock) (clock w + 60000000)
                    (Some "Ada L.") (Some "ada@example.org") (Some "Match Score")
                    (Some "Engineer") (Some "75%")])%list).
Proof.
  intros db_data w.
  apply (record_interaction_twice (datetime := Calendar.iso_clock) w db_data [] []
           (Some "ada@example.org") (Some "Ada") (Some "Resume Analysis")
           (Some "Engineer") (Some "Strong match") (Some "Ada L.") (Some "Match Score")
           (Some "Engineer") (Some "75%") (clock w + 60000000) false); reflexivity.
Defined.

Lemma record_interaction_write_failure_witness :
  let db_data := [("users", PList []); ("history", PList [entry_1_day_old])] in
  let w := {| db_file := Holds (PDict db_data);
              write_error := Some (BreaksOff "[Errno 28] No space left on device");
              clock := Calendar.noon_2024_04_11; shown := [] |} in
  let after :=
    record_interaction (datetime := Calendar.iso_clock) (Some "Ada")
      (Some "ada@example.org") (Some "Resume Analysis") (Some "Engineer")
      (Some "Strong match") w in
  fst after = Ok tt
  /\ (db_file (snd after) = Malformed
      /\ fst (load_db_data (snd after)) = Ok empty_db)
  /\ shown (snd after)
     = (shown (snd (load_db_data w)) ++
        [St_error ("Error writing to 'app_data.json': "
                     ++ "[Errno 28] No space left on device"
                     ++ ". Ensure the application has write permissions to this directory.");
         Sidebar_info ("Interaction recorded: " ++ "Resume Analysis")])%list.
Proof.
  intros db_data w.
  apply (record_interaction_write_failure (datetime := Calendar.iso_clock) w db_data []
           [entry_1_day_old] (Some "Ada") (Some "ada@example.org") (Some "Resume Analysis")
           (Some "Engineer") (Some "Strong match") false
           (BreaksOff "[Errno 28] No space left on device")); reflexivity.
Defined.

Lemma record_interaction_keeps_other_keys_witness :
  let db_data := [("version", PInt 2); ("users", PList []); ("history", PList [])] in
  exists db_data',
    db_file (snd (record_interaction (datetime := Calendar.iso_clock) (Some "Ada")
                    (Some "ada@example.org") (Some "Resume Analysis") (Some "Engineer")
                    (Some "Strong match") (holding (PDict db_data))))
    = Holds (PDict db_data')
    /\ forall key, key <> "users" -> key <> "history" ->
         dict_get key db_data' = dict_get key db_data.
Proof.
  intros db_data.
  apply (record_interaction_keeps_other_keys (datetime := Calendar.iso_clock)
           (holding (PDict db_data)) db_data [] [] (Some "Ada") (Some "ada@example.org")
           (Some "Resume Analysis") (Some "Engineer") (Some "Strong match") false);
    reflexivity.
Defined.

Lemma record_interaction_raise_writes_nothing_witness :
  let w := holding (PDict [("users", PInt 1); ("history", PList [])]) in
  db_file (snd (record_interaction (datetime := Calendar.iso_clock) (Some "Ada")
                  (Some "ada@example.org") (Some "Resume Analysis") (Some "Engineer")
                  (Some "Strong match") w)) = db_file w.
Proof.
  intros w.
  apply (record_interaction_raise_writes_nothing (datetime := Calendar.iso_clock) w
           (Some "Ada") (Some "ada@example.org") (Some "Resume Analysis") (Some "Engineer")
           (Some "Strong match") TypeError).
  reflexivity.
Defined.

(** ** More on [clean_old_history] *)

Section CleanExtras.

Context {datetime : Datetime}.

Lemma sweep_keeps_and_expires (current_time days_threshold : Z) (history : list pyval) :
  sweep current_time days_threshold history
  = (filter (Outcomes.keeps current_time days_threshold) history,
     existsb (Outcomes.expires current_time days_threshold) history,
     snd (sweep current_time days_threshold history)).
Proof.
  pose proof (sweep_spec current_time days_threshold history) as H.
  destruct (sweep current_time days_threshold history) as [[cleaned occurred] warnings].
  destruct H as [-> ->]. reflexivity.
Qed.

Lemma kept_entries_do_not_expire (current_time days_threshold : Z) (history : list pyval) :
  existsb (Outcomes.expires current_time days_threshold)
    (filter (Outcomes.keeps current_time days_threshold) history) = false.
Proof.
  induction history as [|entry rest IH]; [reflexivity|]. cbn [filter].
  destruct (Outcomes.keeps current_time days_threshold entry) eqn:E; [|exact IH].
  cbn [existsb]. rewrite IH, orb_false_r.
  unfold Outcomes.keeps, Outcomes.expires in *.
  destruct (examine current_time days_threshold entry); [reflexivity|discriminate|discriminate].
Qed.

Lemma filter_kept_twice (current_time days_threshold : Z) (history : list pyval) :
  filter (Outcomes.keeps current_time days_threshold)
    (filter (Outcomes.keeps current_time days_threshold) history)
  = filter (Outcomes.keeps current_time days_threshold) history.
Proof.
  induction history as [|entry rest IH]; [reflexivity|]. cbn [filter].
  destruct (Outcomes.keeps current_time days_threshold entry) eqn:E; [|exact IH].
  cbn [filter]. now rewrite E, IH.
Qed.

(** What a call that reports cleanup has done. *)
Lemma clean_old_history_true
  (db_data_to_clean : pyval) (days_threshold : Z) (w : world) :
  fst (fst (clean_old_history db_data_to_clean days_threshold w)) = Ok true ->
  exists fields entries,
    db_data_to_clean = PDict fields
    /\ (history <- subscript db_data_to_clean "history" ;; iterate history) = Ok entries
    /\ existsb (Outcomes.expires (clock w) days_threshold) entries = true
    /\ clean_old_history db_data_to_clean days_threshold w
       = (Ok true,
          PDict (dict_set "history"
                   (PList (filter (Outcomes.keeps (clock w) days_threshold) entries)) fields),
          save_db_data
            (PDict (dict_set "history"
                      (PList (filter (Outcomes.keeps (clock w) days_threshold) entries))
                      fields))
            (fold_left (fun w e => show e w)
               (snd (sweep (clock w) days_threshold entries)) w)).
Proof.
  unfold clean_old_history.
  destruct (history <- subscript db_data_to_clean "history";; iterate history)
    as [entries|e]; [|discriminate].
  rewrite (sweep_keeps_and_expires (clock w) days_threshold entries).
  destruct (existsb (Outcomes.expires (clock w) days_threshold) entries) eqn:Hold;
    [|discriminate].
  destruct db_data_to_clean as [| | | | |fields]; try discriminate.
  intros _. exists fields, entries. repeat split. exact Hold.
Qed.

(** X14: when [clean_old_history] returns [True], some entry was older than
    the threshold; the history it leaves and writes is the given one without
    the entries its loop did not keep, in the same order, and every other
    key of the dictionary is unchanged. *)
Theorem clean_old_history_true_prunes_in_order
  (db_data_to_clean : pyval) (days_threshold : Z) (w : world) :
  fst (fst (clean_old_history db_data_to_clean days_threshold w)) = Ok true ->
  write_error w = None ->
  exists fields fields' entries,
    db_data_to_clean = PDict fields
    /\ (history <- subscript db_data_to_clean "history" ;; iterate history) = Ok entries
    /\ existsb (Outcomes.expires (clock w) days_threshold) entries = true
    /\ snd (fst (clean_old_history db_data_to_clean days_threshold w)) = PDict fields'
    /\ db_file (snd (clean_old_history db_data_to_clean days_threshold w))
       = Holds (PDict fields')
    /\ dict_get "history" fields'
       = Some (PList (filter (Outcomes.keeps (clock w) days_threshold) entries))
    /\ (forall key, key <> "history" -> dict_get key fields' = dict_get key fields).
Proof.
  intros Htrue Hwrite.
  destruct (clean_old_history_true _ _ _ Htrue) as (fields & entries & Hd & Hit & Hold & Hrun).
  exists fields, (dict_set "history"
                    (PList (filter (Outcomes.keeps (clock w) days_threshold) entries)) fields),
    entries.
  rewrite Hrun. cbn [fst snd].
  split; [exact Hd|]. split; [exact Hit|]. split; [exact Hold|]. split; [reflexivity|].
  split; [|split].
  - unfold save_db_data.
    destruct (shown_only (snd (sweep (clock w) days_threshold entries)) w) as [_ Hw].
    rewrite Hw, Hwrite. reflexivity.
  - apply dict_get_set_same.
  - intros key Hkey. apply dict_get_set_other. exact Hkey.
Qed.

(** X15: cleaning is idempotent at a given time: after a call that returned
    [True], a second call on the dictionary it left, with the same
    threshold, returns [False] and changes nothing. *)
Theorem clean_old_history_twice
  (db_data_to_clean : pyval) (days_threshold : Z) (w : world) :
  let first := clean_old_history db_data_to_clean days_threshold w in
  fst (fst first) = Ok true ->
  let second := clean_old_history (snd (fst first)) days_threshold (snd first) in
  fst (fst second) = Ok false
  /\ snd (fst second) = snd (fst first)
  /\ db_file (snd second) = db_file (snd first).
Proof.
  intros first Htrue second. subst first second.
  destruct (clean_old_history_true _ _ _ Htrue) as (fields & entries & Hd & Hit & Hold & Hrun).
  rewrite Hrun. cbn [fst snd].
  set (w1 := save_db_data _ _).
  assert (Hclock : clock w1 = clock w).
  { subst w1. destruct (save_db_data_keeps
      (PDict (dict_set "history"
                (PList (filter (Outcomes.keeps (clock w) days_threshold) entries)) fields))
      (fold_left (fun w e => show e w) (snd (sweep (clock w) days_threshold entries)) w))
      as [Hc _].
    rewrite Hc. apply shown_keeps_clock. }
  unfold clean_old_history. cbn [subscript]. rewrite dict_get_set_same. cbn [bind iterate].
  rewrite Hclock, sweep_keeps_and_expires, kept_entries_do_not_expire. cbn [fst snd].
  split; [reflexivity|]. split; [reflexivity|]. apply shown_only.
Qed.

(** X16: a record whose timestamp parses to a naive datetime is kept exactly
    when less than [days_threshold + 1] whole days lie between the timestamp
    and the current time, and counted as old otherwise; a timestamp in the
    future is kept for every threshold that is not negative. *)
Theorem examine_keeps_until_threshold_plus_one_day
  (current_time days_threshold : Z) (fields : list (string * pyval))
  (timestamp : string) (dt_obj : Z) :
  dict_get "timestamp" fields = Some (PStr timestamp) ->
  fromisoformat timestamp = Naive dt_obj ->
  (examine current_time days_threshold (PDict fields) = Kept None
   <-> current_time - dt_obj < (days_threshold + 1) * microseconds_per_day)
  /\ (examine current_time days_threshold (PDict fields) = Expired
      <-> (days_threshold + 1) * microseconds_per_day <= current_time - dt_obj)
  /\ (0 <= days_threshold -> current_time <= dt_obj ->
      examine current_time days_threshold (PDict fields) = Kept None).
Proof.
  intros Hget Hparse.
  assert (Hdays : timedelta_days current_time dt_obj <= days_threshold
                  <-> current_time - dt_obj < (days_threshold + 1) * microseconds_per_day).
  { unfold timedelta_days, microseconds_per_day.
    pose proof (Z.div_mod (current_time - dt_obj) (86400 * 1000000) ltac:(lia)) as Hdm.
    pose proof (Z.mod_pos_bound (current_time - dt_obj) (86400 * 1000000) ltac:(lia)) as Hb.
    split; intros H; nia. }
  unfold examine. cbn [str_in subscript]. unfold has_key. rewrite Hget, Hparse.
  destruct (Z.leb_spec (timedelta_days current_time dt_obj) days_threshold) as [Hle|Hgt].
  - split; [tauto|]. split; [|reflexivity].
    split; [discriminate|]. intros H. apply Hdays in Hle. lia.
  - assert (~ current_time - dt_obj < (days_threshold + 1) * microseconds_per_day)
      by (intros H; apply Hdays in H; lia).
    split; [split; [discriminate|tauto]|]. split; [split; [lia|reflexivity]|].
    intros H0 Hfuture. unfold microseconds_per_day in *. lia.
Qed.

(** X17: [clean_old_history] raises exactly when the history cannot be
    reached or iterated.  When the argument is no dictionary it raises
    [TypeError], when it has no ["history"] key [KeyError], when the value
    under the key is [None], a boolean or a number [TypeError], and it then
    has shown and written nothing; in every other case it returns [True] or
    [False]. *)
Theorem clean_old_history_raises
  (db_data_to_clean : pyval) (days_threshold : Z) (w : world) :
  match Outcomes.history_unreachable db_data_to_clean with
  | Some e =>
      clean_old_history db_data_to_clean days_threshold w = (Raise e, db_data_to_clean, w)
  | None =>
      exists cleanup_occurred,
        fst (fst (clean_old_history db_data_to_clean days_threshold w))
        = Ok cleanup_occurred
  end.
Proof.
  unfold Outcomes.history_unreachable, clean_old_history.
  destruct db_data_to_clean as [| | | | |fields]; cbn [subscript bind]; try reflexivity.
  destruct (dict_get "history" fields) as [history|]; cbn [bind]; [|reflexivity].
  destruct history as [| | | | |]; cbn [iterate]; try reflexivity;
    destruct (sweep _ _ _) as [[cleaned occurred] warnings];
    destruct occurred; eexists; reflexivity.
Qed.

(** X18: when [clean_old_history] returns [False], the dictionary it was
    given and the store file are as before the call. *)
Theorem clean_old_history_false_untouched
  (db_data_to_clean : pyval) (days_threshold : Z) (w : world) :
  fst (fst (clean_old_history db_data_to_clean days_threshold w)) = Ok false ->
  snd (fst (clean_old_history db_data_to_clean days_threshold w)) = db_data_to_clean
  /\ db_file (snd (clean_old_history db_data_to_clean days_threshold w)) = db_file w.
Proof.
  pose proof (clean_old_history_nothing_expired db_data_to_clean days_threshold w) as H.
  destruct (clean_old_history db_data_to_clean days_threshold w) as [[result db_data] w'].
  exact H.
Qed.

End CleanExtras.

Lemma clean_old_history_true_prunes_in_order_witness :
  let data := with_history [entry_101_days_old; entry_1_day_old] in
  let w := holding data in
  exists fields fields' entries,
    data = PDict fields
    /\ (history <- subscript data "history" ;; iterate history) = Ok entries
    /\ existsb (Outcomes.expires (datetime := Calendar.iso_clock) (clock w) 100) entries
       = true
    /\ snd (fst (clean_old_history (datetime := Calendar.iso_clock) data 100 w))
       = PDict fields'
    /\ db_file (snd (clean_old_history (datetime := Calendar.iso_clock) data 100 w))
       = Holds (PDict fields')
    /\ dict_get "history" fields'
       = Some (PList (filter (Outcomes.keeps (datetime := Calendar.iso_clock) (clock w) 100)
                        entries))
    /\ (forall key, key <> "history" -> dict_get key fields' = dict_get key fields).
Proof.
  intros data w.
  apply (clean_old_history_true_prunes_in_order (datetime := Calendar.iso_clock) data 100 w).
  - vm_compute. reflexivity.
  - reflexivity.
Defined.

Lemma clean_old_history_twice_witness :
  let data := with_history [entry_101_days_old; PInt 5; entry_1_day_old] in
  let first := clean_old_history (datetime := Calendar.iso_clock) data 100 (holding data) in
  let second :=
    clean_old_history (datetime := Calendar.iso_clock) (snd (fst first)) 100 (snd first) in
  fst (fst second) = Ok false
  /\ snd (fst second) = snd (fst first)
  /\ db_file (snd second) = db_file (snd first).
Proof.
  intros data.
  apply (clean_old_history_twice (datetime := Calendar.iso_clock) data 100 (holding data)).
  vm_compute. reflexivity.
Defined.

Lemma examine_keeps_until_threshold_plus_one_day_witness :
  let fields := [("timestamp", PStr "2024-01-01T12:00:00")] in
  let dt_obj := Calendar.noon_2024_04_11 - 101 * microseconds_per_day in
  (examine (datetime := Calendar.iso_clock) Calendar.noon_2024_04_11 100 (PDict fields)
   = Kept None
   <-> Calendar.noon_2024_04_11 - dt_obj < (100 + 1) * microseconds_per_day)
  /\ (examine (datetime := Calendar.iso_clock) Calendar.noon_2024_04_11 100 (PDict fields)
      = Expired
      <-> (100 + 1) * microseconds_per_day <= Calendar.noon_2024_04_11 - dt_obj)
  /\ (0 <= 100 -> Calendar.noon_2024_04_11 <= dt_obj ->
      examine (datetime := Calendar.iso_clock) Calendar.noon_2024_04_11 100 (PDict fields)
      = Kept None).
Proof.
  intros fields dt_obj.
  apply (examine_keeps_until_threshold_plus_one_day (datetime := Calendar.iso_clock)
           Calendar.noon_2024_04_11 100 fields "2024-01-01T12:00:00" dt_obj).
  - reflexivity.
  - vm_compute. reflexivity.
Defined.

Lemma clean_old_history_false_untouched_witness :
  let data := with_history [PInt 5; entry_1_day_old] in
  let w := holding empty_db in
  snd (fst (clean_old_history (datetime := Calendar.iso_clock) data 100 w)) = data
  /\ db_file (snd (clean_old_history (datetime := Calendar.iso_clock) data 100 w))
     = db_file w.
Proof.
  intros data w.
  apply (clean_old_history_false_untouched (datetime := Calendar.iso_clock) data 100 w).
  vm_compute. reflexivity.
Defined.

Lemma record_interaction_without_email_witness :
  let db_data := [("users", PList []); ("history", PList [])] in
  exists db_data',
    db_file (snd (record_interaction (datetime := Calendar.iso_clock) (Some "Guest")
                    (Some "") (Some "Resume Analysis") (Some "Engineer")
                    (Some "Strong match") (holding (PDict db_data))))
    = Holds (PDict db_data')
    /\ dict_get "users" db_data' = Some (PList []).
Proof.
  intros db_data.
  apply (record_interaction_without_email (datetime := Calendar.iso_clock)
           (holding (PDict db_data)) db_data [] [] (Some "Guest") (Some "")
           (Some "Resume Analysis") (Some "Engineer") (Some "Strong match") false);
    reflexivity.
Defined.

(** * Properties of [sanitize_filename] *)

Import Filenames.

Lemma lstrip_chars (p : ascii -> bool) (s : string) :
  all_chars p s = true -> all_chars p (lstrip s) = true.
Proof.
  induction s as [|c s IH]; [reflexivity|]. cbn [lstrip all_chars].
  intros H. apply andb_true_iff in H as [Hc Hs].
  destruct (Ascii.eqb c "_"); [exact (IH Hs)|]. cbn [all_chars]. now rewrite Hc, Hs.
Qed.

Lemma rstrip_chars (p : ascii -> bool) (s : string) :
  all_chars p s = true -> all_chars p (rstrip s) = true.
Proof.
  induction s as [|c s IH]; [reflexivity|]. cbn [rstrip all_chars].
  intros H. apply andb_true_iff in H as [Hc Hs]. specialize (IH Hs).
  destruct (rstrip s) as [|c' kept].
  - destruct (Ascii.eqb c "_"); [reflexivity|]. cbn [all_chars]. now rewrite Hc.
  - cbn [all_chars] in *. now rewrite Hc, IH.
Qed.

Lemma lstrip_first (s : string) : first_char (lstrip s) <> Some "_"%char.
Proof.
  induction s as [|c s IH]; [discriminate|]. cbn [lstrip].
  destruct (Ascii.eqb c "_") eqn:E; [exact IH|]. cbn [first_char].
  intros H. injection H as ->. discriminate.
Qed.

Lemma lstrip_fixed (s : string) : first_char s <> Some "_"%char -> lstrip s = s.
Proof.
  destruct s as [|c s]; [reflexivity|]. cbn [first_char lstrip]. intros H.
  destruct (Ascii.eqb c "_") eqn:E; [|reflexivity].
  apply Ascii.eqb_eq in E. congruence.
Qed.

Lemma rstrip_first (s : string) :
  first_char s <> Some "_"%char -> first_char (rstrip s) = first_char s.
Proof.
  destruct s as [|c s]; [reflexivity|]. cbn [first_char rstrip]. intros H.
  destruct (rstrip s); [|reflexivity].
  destruct (Ascii.eqb c "_") eqn:E; [|reflexivity].
  apply Ascii.eqb_eq in E. congruence.
Qed.

Lemma rstrip_last (s : string) : last_char (rstrip s) <> Some "_"%char.
Proof.
  induction s as [|c s IH]; [discriminate|]. cbn [rstrip].
  destruct (rstrip s) as [|c' kept].
  - destruct (Ascii.eqb c "_") eqn:E; [discriminate|]. cbn [last_char].
    intros H. injection H as ->. discriminate.
  - exact IH.
Qed.

Lemma rstrip_fixed (s : string) : last_char s <> Some "_"%char -> rstrip s = s.
Proof.
  induction s as [|c s IH]; [reflexivity|]. cbn [rstrip]. intros H.
  destruct s as [|c' s'].
  - cbn [rstrip]. cbn [last_char] in H.
    destruct (Ascii.eqb c "_") eqn:E; [|reflexivity].
    apply Ascii.eqb_eq in E. congruence.
  - rewrite IH by exact H. reflexivity.
Qed.

Lemma strip_fixed_point (s : string) : strip (strip s) = strip s.
Proof.
  unfold strip.
  rewrite (lstrip_fixed (rstrip (lstrip s))).
  - apply rstrip_fixed, rstrip_last.
  - rewrite rstrip_first by apply lstrip_first. apply lstrip_first.
Qed.

Lemma lstrip_length (s : string) : (String.length (lstrip s) <= String.length s)%nat.
Proof.
  induction s as [|c s IH]; [reflexivity|]. cbn [lstrip].
  destruct (Ascii.eqb c "_"); cbn [String.length]; lia.
Qed.

Lemma rstrip_length (s : string) : (String.length (rstrip s) <= String.length s)%nat.
Proof.
  induction s as [|c s IH]; [reflexivity|]. cbn [rstrip].
  destruct (rstrip s); [destruct (Ascii.eqb c "_")|]; cbn [String.length] in *; lia.
Qed.

Lemma lstrip_empty (s : string) : lstrip s = "" <-> all_chars underscore s = true.
Proof.
  induction s as [|c s IH]; [split; reflexivity|]. cbn [lstrip all_chars]. unfold underscore at 1.
  destruct (Ascii.eqb c "_"); cbn [andb]; [exact IH|split; discriminate].
Qed.

Lemma rstrip_empty (s : string) : rstrip s = "" <-> all_chars underscore s = true.
Proof.
  induction s as [|c s IH]; [split; reflexivity|]. cbn [rstrip all_chars]. unfold underscore at 1.
  destruct (rstrip s) as [|c' kept].
  - destruct (Ascii.eqb c "_"); cbn [andb]; [|split; discriminate].
    split; intros _; [now apply IH|reflexivity].
  - split; [discriminate|]. intros H. apply andb_true_iff in H as [_ H].
    apply IH in H. discriminate.
Qed.

Lemma lstrip_underscores (s : string) :
  all_chars underscore s = true -> lstrip s = "".
Proof. apply lstrip_empty. Qed.

Lemma all_chars_lstrip_underscore (s : string) :
  all_chars underscore (lstrip s) = all_chars underscore s.
Proof.
  induction s as [|c s IH]; [reflexivity|]. cbn [lstrip all_chars]. unfold underscore at 2.
  destruct (Ascii.eqb c "_") eqn:E; [exact IH|]. cbn [all_chars]. unfold underscore at 1.
  now rewrite E.
Qed.

Section SanitizeFacts.

Variable isalnum : ascii -> bool.

Lemma underscore_allowed : allowed isalnum "_" = true.
Proof. unfold allowed. cbn. apply orb_true_r. Qed.

Lemma replaced_allowed (name : string) :
  all_chars (allowed isalnum) (replaced isalnum name) = true.
Proof.
  induction name as [|c name IH]; [reflexivity|]. cbn [replaced all_chars].
  rewrite IH, andb_true_r.
  destruct (allowed isalnum c) eqn:E; [exact E|apply underscore_allowed].
Qed.

Lemma replaced_fixed (name : string) :
  all_chars (allowed isalnum) name = true -> replaced isalnum name = name.
Proof.
  induction name as [|c name IH]; [reflexivity|]. cbn [replaced all_chars].
  intros H. apply andb_true_iff in H as [-> H]. now rewrite IH.
Qed.

Lemma replaced_length (name : string) :
  String.length (replaced isalnum name) = String.length name.
Proof.
  induction name as [|c name IH]; [reflexivity|]. cbn [replaced String.length].
  now rewrite IH.
Qed.

Lemma replaced_underscores (name : string) :
  all_chars underscore (replaced isalnum name)
  = all_chars (fun c => negb (allowed isalnum c) || underscore c) name.
Proof.
  induction name as [|c name IH]; [reflexivity|]. cbn [replaced all_chars].
  rewrite IH. f_equal.
  destruct (allowed isalnum c); [reflexivity|]. reflexivity.
Qed.

(** X19: the name [sanitize_filename] returns is made of characters that
    are alphanumeric, a space, an underscore or a hyphen only, it neither
    starts nor ends with an underscore, and it is no longer than the name
    given. *)
Theorem sanitize_filename_is_safe (name : string) :
  all_chars (allowed isalnum) (sanitize_filename isalnum name) = true
  /\ first_char (sanitize_filename isalnum name) <> Some "_"%char
  /\ last_char (sanitize_filename isalnum name) <> Some "_"%char
  /\ (String.length (sanitize_filename isalnum name) <= String.length name)%nat.
Proof.
  unfold sanitize_filename, strip. repeat split.
  - apply rstrip_chars, lstrip_chars, replaced_allowed.
  - rewrite rstrip_first by apply lstrip_first. apply lstrip_first.
  - apply rstrip_last.
  - pose proof (rstrip_length (lstrip (replaced isalnum name))).
    pose proof (lstrip_length (replaced isalnum name)).
    pose proof (replaced_length name). lia.
Qed.

(** X20: [sanitize_filename] is idempotent: a sanitized name is returned
    unchanged. *)
Theorem sanitize_filename_idempotent (name : string) :
  sanitize_filename isalnum (sanitize_filename isalnum name)
  = sanitize_filename isalnum name.
Proof.
  unfold sanitize_filename at 1.
  rewrite replaced_fixed.
  - unfold sanitize_filename. apply strip_fixed_point.
  - unfold sanitize_filename, strip. apply rstrip_chars, lstrip_chars, replaced_allowed.
Qed.

(** X21: a name made of allowed characters that neither starts nor ends
    with an underscore is returned as it is. *)
Theorem sanitize_filename_keeps_safe_name (name : string) :
  all_chars (allowed isalnum) name = true ->
  first_char name <> Some "_"%char ->
  last_char name <> Some "_"%char ->
  sanitize_filename isalnum name = name.
Proof.
  intros Hall Hfirst Hlast. unfold sanitize_filename, strip.
  rewrite replaced_fixed by exact Hall.
  rewrite lstrip_fixed by exact Hfirst. apply rstrip_fixed. exact Hlast.
Qed.

(** X22: the result is the empty string exactly when every character of
    the name is an underscore or not allowed; such a name yields no file
    name at all. *)
Theorem sanitize_filename_empty (name : string) :
  sanitize_filename isalnum name = ""
  <-> all_chars (fun c => negb (allowed isalnum c) || underscore c) name = true.
Proof.
  unfold sanitize_filename, strip.
  rewrite rstrip_empty, all_chars_lstrip_underscore, replaced_underscores. reflexivity.
Qed.

End SanitizeFacts.

Lemma sanitize_filename_keeps_safe_name_witness :
  sanitize_filename ascii_isalnum "Ada Lovelace_resume-v2" = "Ada Lovelace_resume-v2".
Proof.
  apply (sanitize_filename_keeps_safe_name ascii_isalnum "Ada Lovelace_resume-v2").
  - reflexivity.
  - discriminate.
  - discriminate.
Defined.

Example sanitize_filename_examples :
  sanitize_filename ascii_isalnum "report: Q3/2024?.pdf" = "report_ Q3_2024__pdf"
  /\ sanitize_filename ascii_isalnum "__draft__" = "draft"
  /\ sanitize_filename ascii_isalnum "???" = "".
Proof.
  vm_compute. repeat split.
Qed.

(** * Properties of [pdf_to_base64_images] *)

Section ConvertFacts.

Context {poppler : PdfImages.Poppler}.
Variable POPPLER_PATH : option string.

Lemma encode_pages_saved (images : list PdfImages.page) (i pages_to_process : Z) :
  Forall (fun image => PdfImages.savable image = true)
    (firstn (Z.to_nat (pages_to_process - i)) images) ->
  PdfImages.encode_pages i pages_to_process images
  = inl (map PdfImages.part_of (firstn (Z.to_nat (pages_to_process - i)) images)).
Proof.
  revert i; induction images as [|image later IH]; intros i Hall; cbn [PdfImages.encode_pages].
  - now rewrite firstn_nil.
  - destruct (Z.leb_spec pages_to_process i) as [Hbreak|Hgo].
    + replace (Z.to_nat (pages_to_process - i)) with 0%nat by lia. reflexivity.
    + replace (Z.to_nat (pages_to_process - i))
        with (S (Z.to_nat (pages_to_process - (i + 1)))) in * by lia.
      cbn [firstn map] in *. inversion Hall as [|? ? Hsave Hrest]; subst.
      rewrite (IH (i + 1) Hrest). unfold PdfImages.part_of, PdfImages.savable in *.
      destruct (PdfImages.save_jpeg image); [reflexivity|discriminate].
Qed.

Lemma encode_pages_unsaved (images : list PdfImages.page) (i pages_to_process : Z) :
  Exists (fun image => PdfImages.savable image = false)
    (firstn (Z.to_nat (pages_to_process - i)) images) ->
  exists str_e, PdfImages.encode_pages i pages_to_process images = inr str_e.
Proof.
  revert i; induction images as [|image later IH]; intros i Hex; cbn [PdfImages.encode_pages].
  - rewrite firstn_nil in Hex. inversion Hex.
  - destruct (Z.leb_spec pages_to_process i) as [Hbreak|Hgo].
    + replace (Z.to_nat (pages_to_process - i)) with 0%nat in Hex by lia. inversion Hex.
    + replace (Z.to_nat (pages_to_process - i))
        with (S (Z.to_nat (pages_to_process - (i + 1)))) in * by lia.
      cbn [firstn] in Hex.
      destruct (PdfImages.save_jpeg image) as [bytes|str_e] eqn:Hs; [|eauto].
      inversion Hex as [? ? Hhere|? ? Hlater]; subst.
      * unfold PdfImages.savable in Hhere. rewrite Hs in Hhere. discriminate.
      * destruct (IH (i + 1) Hlater) as [str_e ->]. eauto.
Qed.

Lemma encode_pages_parts (images : list PdfImages.page) (i pages_to_process : Z)
  (parts : list image_part) :
  PdfImages.encode_pages i pages_to_process images = inl parts ->
  (List.length parts <= Z.to_nat (pages_to_process - i))%nat
  /\ (List.length parts <= List.length images)%nat
  /\ Forall (fun part => mime_type part = "image/jpeg") parts.
Proof.
  revert i parts; induction images as [|image later IH]; intros i parts;
    cbn [PdfImages.encode_pages].
  - intros H. injection H as <-. cbn [List.length].
    split; [lia|]. split; [lia|constructor].
  - destruct (Z.leb_spec pages_to_process i) as [Hbreak|Hgo].
    + intros H. injection H as <-. cbn [List.length].
      split; [lia|]. split; [lia|constructor].
    + destruct (PdfImages.save_jpeg image) as [bytes|str_e]; [|discriminate].
      destruct (PdfImages.encode_pages (i + 1) pages_to_process later) as [rest|str_e] eqn:E;
        [|discriminate].
      intros H. injection H as <-. destruct (IH _ _ E) as (H1 & H2 & H3).
      cbn [List.length]. split; [lia|]. split; [lia|].
      constructor; [reflexivity|exact H3].
Qed.

(** X23: [pdf_to_base64_images] returns at most [pages_to_process] parts
    and at most one per page of the PDF, each tagged ["image/jpeg"]; it shows
    exactly one message, and no part is returned with an error message;
    without a file, or with [pages_to_process <= 0], it returns no part. *)
Theorem pdf_to_base64_images_bounds
  (uploaded_file : option string) (pages_to_process : Z) :
  let result := PdfImages.pdf_to_base64_images POPPLER_PATH uploaded_file pages_to_process in
  (List.length (fst result) <= Z.to_nat pages_to_process)%nat
  /\ Forall (fun part => mime_type part = "image/jpeg") (fst result)
  /\ (exists message, snd result = [message]
        /\ (fst result <> [] -> exists text, message = PdfImages.St_success text))
  /\ (uploaded_file = None -> fst result = []).
Proof.
  intros result. subst result. unfold PdfImages.pdf_to_base64_images.
  assert (Hnone : forall message : PdfImages.message,
    (List.length (@nil image_part) <= Z.to_nat pages_to_process)%nat
    /\ Forall (fun part => mime_type part = "image/jpeg") (@nil image_part)
    /\ (exists m, [message] = [m]
          /\ (@nil image_part <> [] -> exists text, m = PdfImages.St_success text))).
  { intros message. split; [cbn; lia|]. split; [constructor|].
    exists message. split; [reflexivity|]. intros H. exfalso. apply H. reflexivity. }
  destruct uploaded_file as [pdf_bytes|].
  - destruct (PdfImages.convert_from_bytes pdf_bytes _) as [images|str_e]; cbn [fst snd].
    + destruct (PdfImages.encode_pages 0 pages_to_process images) as [parts|str_e] eqn:E;
        cbn [fst snd].
      * destruct (encode_pages_parts _ _ _ _ E) as (H1 & H2 & H3).
        replace (pages_to_process - 0) with pages_to_process in H1 by lia.
        split; [exact H1|]. split; [exact H3|]. split; [|discriminate].
        eexists; split; [reflexivity|]. intros _. eexists; reflexivity.
      * destruct (Hnone (PdfImages.conversion_error str_e)) as (H1 & H2 & H3).
        split; [exact H1|]. split; [exact H2|]. split; [exact H3|discriminate].
    + destruct (Hnone (PdfImages.conversion_error str_e)) as (H1 & H2 & H3).
      split; [exact H1|]. split; [exact H2|]. split; [exact H3|discriminate].
  - cbn [fst snd].
    destruct (Hnone (PdfImages.St_error "No file provided for PDF to image conversion."))
      as (H1 & H2 & H3).
    split; [exact H1|]. split; [exact H2|]. split; [exact H3|reflexivity].
Qed.

(** X24: when the conversion yields the pages and each of the first
    [pages_to_process] of them can be saved as JPEG, the parts returned are
    those pages, in order: the base64 text of the JPEG of each, as many as
    the smaller of [pages_to_process] and the number of pages. *)
Theorem pdf_to_base64_images_first_pages
  (pdf_bytes : string) (pages_to_process : Z) (images : list PdfImages.page) :
  PdfImages.convert_from_bytes pdf_bytes
    match POPPLER_PATH with
    | Some path => if truthy path then Some path else None
    | None => None
    end = inl images ->
  Forall (fun image => PdfImages.savable image = true)
    (firstn (Z.to_nat pages_to_process) images) ->
  let result :=
    PdfImages.pdf_to_base64_images POPPLER_PATH (Some pdf_bytes) pages_to_process in
  fst result = map PdfImages.part_of (firstn (Z.to_nat pages_to_process) images)
  /\ List.length (fst result)
     = Nat.min (Z.to_nat pages_to_process) (List.length images).
Proof.
  intros Hconv Hsave result. subst result. unfold PdfImages.pdf_to_base64_images.
  rewrite Hconv.
  rewrite (encode_pages_saved images 0 pages_to_process)
    by (replace (pages_to_process - 0) with pages_to_process by lia; exact Hsave).
  replace (pages_to_process - 0) with pages_to_process by lia.
  cbn [fst]. split; [reflexivity|]. now rewrite length_map, length_firstn.
Qed.

(** X25: the conversion is all or nothing: when one of the first
    [pages_to_process] pages cannot be saved, the parts of the pages before it
    are dropped; the call returns the empty list and shows one error. *)
Theorem pdf_to_base64_images_all_or_nothing
  (pdf_bytes : string) (pages_to_process : Z) (images : list PdfImages.page) :
  PdfImages.convert_from_bytes pdf_bytes
    match POPPLER_PATH with
    | Some path => if truthy path then Some path else None
    | None => None
    end = inl images ->
  Exists (fun image => PdfImages.savable image = false)
    (firstn (Z.to_nat pages_to_process) images) ->
  let result :=
    PdfImages.pdf_to_base64_images POPPLER_PATH (Some pdf_bytes) pages_to_process in
  fst result = []
  /\ exists str_e, snd result = [PdfImages.conversion_error str_e].
Proof.
  intros Hconv Hbad result. subst result. unfold PdfImages.pdf_to_base64_images.
  rewrite Hconv.
  destruct (encode_pages_unsaved images 0 pages_to_process) as [str_e ->].
  - replace (pages_to_process - 0) with pages_to_process by lia. exact Hbad.
  - split; [reflexivity|]. exists str_e. reflexivity.
Qed.

End ConvertFacts.

Lemma pdf_to_base64_images_first_pages_witness :
  let result :=
    PdfImages.pdf_to_base64_images (poppler := PdfImages.toy_poppler) None
      (Some "one|two|three") 2 in
  fst result
  = map (PdfImages.part_of (poppler := PdfImages.toy_poppler))
      (firstn (Z.to_nat 2) ["one"; "two"; "three"])
  /\ List.length (fst result) = Nat.min (Z.to_nat 2) (List.length ["one"; "two"; "three"]).
Proof.
  apply (pdf_to_base64_images_first_pages (poppler := PdfImages.toy_poppler) None
           "one|two|three" 2 ["one"; "two"; "three"]).
  - reflexivity.
  - repeat constructor.
Defined.

Lemma pdf_to_base64_images_all_or_nothing_witness :
  let result :=
    PdfImages.pdf_to_base64_images (poppler := PdfImages.toy_poppler) None
      (Some "one||three") 3 in
  fst result = []
  /\ exists str_e, snd result = [PdfImages.conversion_error str_e].
Proof.
  apply (pdf_to_base64_images_all_or_nothing (poppler := PdfImages.toy_poppler) None
           "one||three" 3 ["one"; ""; "three"]).
  - reflexivity.
  - apply Exists_cons_tl, Exists_cons_hd. reflexivity.
Defined.

(** * More on [generate_pdf_from_markdown] *)

Section RenderFacts.

Context {renderer : Utils.Renderer}.
Variable WKHTMLTOPDF_PATH : option string.

(** X26: [generate_pdf_from_markdown] lets no exception of the renderer
    escape and shows an error exactly when it returns [None]: either it
    returns the PDF bytes, shows nothing, and the temporary file is gone, or
    it returns [None] and has shown one "Error generating PDF" message.  It
    never removes a file other than its temporary one. *)
Theorem generate_pdf_from_markdown_outcomes
  (markdown_content title footer_text filename : string) (w : Utils.world) :
  let result :=
    Utils.generate_pdf_from_markdown WKHTMLTOPDF_PATH markdown_content title footer_text
      filename w in
  let tmp_pdf := Utils.mkstemp (Utils.files w) in
  ((exists pdf_data,
      fst result = Some pdf_data
      /\ Utils.errors (snd result) = Utils.errors w
      /\ Utils.exists_file tmp_pdf (snd result) = false)
   \/ (fst result = None
       /\ exists str_e,
            Utils.errors (snd result)
            = (Utils.errors w ++ [Utils.failure_message str_e])%list))
  /\ (forall path, path <> tmp_pdf -> In path (Utils.files w) ->
        In path (Utils.files (snd result))).
Proof.
  intros result tmp_pdf.
  assert (Hrender : forall full_html config,
    let r := Utils.render_to_temporary_file full_html config w in
    ((exists pdf_data,
        fst r = Some pdf_data
        /\ Utils.errors (snd r) = Utils.errors w
        /\ Utils.exists_file tmp_pdf (snd r) = false)
     \/ (fst r = None
         /\ exists str_e,
              Utils.errors (snd r) = (Utils.errors w ++ [Utils.failure_message str_e])%list))
    /\ (forall path, path <> tmp_pdf -> In path (Utils.files w) ->
          In path (Utils.files (snd r)))).
  { intros full_html config r. subst r tmp_pdf. unfold Utils.render_to_temporary_file.
    destruct (Utils.from_string full_html config) as [pdf_data|str_e]; cbn [fst snd].
    - split.
      + left. exists pdf_data. split; [reflexivity|]. split; [reflexivity|].
        apply exists_file_unlink.
      + intros path Hne Hin. cbn [Utils.unlink Utils.create Utils.files].
        apply filter_In. split; [right; exact Hin|].
        apply negb_true_iff, String.eqb_neq. exact Hne.
    - split.
      + right. split; [reflexivity|]. exists str_e. reflexivity.
      + intros path _ Hin. right. exact Hin. }
  subst result. unfold Utils.generate_pdf_from_markdown.
  destruct WKHTMLTOPDF_PATH as [path|]; [|apply Hrender].
  destruct (truthy path); [|apply Hrender].
  destruct (Utils.configuration path) as [config|str_e]; [apply Hrender|].
  cbn [fst snd]. split.
  - right. split; [reflexivity|]. exists str_e. reflexivity.
  - intros p _ Hin. exact Hin.
Qed.

End RenderFacts.
